(** * The mdadm collector of node_exporter: parsing /proc/mdstat

    A shallow embedding of [collector/mdadm.go].  Go strings are byte
    strings and are modelled by [string]; [int64] values are integers [Z]
    with the range test of [strconv.ParseInt] written out; slices are
    lists, and every slice or string index of the source is an explicit
    lookup whose failure is the run-time panic of Go.  Lengths and
    indices are natural numbers: no slice is long enough for an [int] to
    wrap around.

    The file has two parts: the definitions (the library functions the
    collector calls, then the collector itself) and the theorems. *)

From Stdlib Require Import String Ascii List ZArith Lia Bool Arith Sorted.
Import ListNotations.
Local Open Scope string_scope.
Local Open Scope list_scope.

(* ================================================================== *)
(** * Part I: definitions *)
(* ================================================================== *)

(** ** Go values shared by the packages below *)

(** The errors the collector can see.  [Error] is the method of Go's
    [error] interface; [fmt.Errorf] with a [%s] verb formats an error
    through it. *)
Inductive NumErr := ErrSyntax | ErrRange.

Inductive error :=
| errorString (msg : string)                       (* fmt.Errorf *)
| NumError (Func Num : string) (Err : NumErr)      (* strconv *)
| PathError (Op Path : string) (notExist : bool) (msg : string). (* os *)

Definition dquote : string := String "034"%char EmptyString.

(** [strconv.Quote] restricted to what the collector quotes: captures of
    [\d+], on which quoting only adds the two double quotes. *)
Definition Quote (s : string) : string := (dquote ++ s ++ dquote)%string.

Definition Error (e : error) : string :=
  match e with
  | errorString msg => msg
  | NumError f num ErrSyntax =>
      ("strconv." ++ f ++ ": parsing " ++ Quote num ++ ": invalid syntax")%string
  | NumError f num ErrRange =>
      ("strconv." ++ f ++ ": parsing " ++ Quote num ++ ": value out of range")%string
  | PathError op path _ msg => (op ++ " " ++ path ++ ": " ++ msg)%string
  end.

(** ** Package strings *)
Module strings.

(** [strings.HasPrefix s prefix] *)
Fixpoint HasPrefix (s prefix : string) : bool :=
  match prefix, s with
  | EmptyString, _ => true
  | String p prefix', String c s' => Ascii.eqb c p && HasPrefix s' prefix'
  | String _ _, EmptyString => false
  end.

(** [strings.Contains s substr] *)
Fixpoint Contains (s substr : string) : bool :=
  HasPrefix s substr ||
  match s with
  | EmptyString => false
  | String _ s' => Contains s' substr
  end.

(** [strings.Split s sep] for a separator of one byte, which is what
    both call sites pass: the pieces between the occurrences of [sep],
    in order; a string without [sep] gives the one-element list. *)
Fixpoint Split (s : string) (sep : ascii) : list string :=
  match s with
  | EmptyString => [EmptyString]
  | String c s' =>
      if Ascii.eqb c sep then EmptyString :: Split s' sep
      else match Split s' sep with
           | piece :: pieces => String c piece :: pieces
           | [] => [String c EmptyString]
           end
  end.

End strings.

(** ** Package regexp

    The two patterns of the collector use literals, greedy repetitions of
    a character class and capture groups that are not nested inside a
    repetition.  A pattern is given by its syntax tree; matching is the
    backtracking search whose first success Go's leftmost-first matching
    is specified to return.  Matching works on bytes: every byte the
    patterns name is ASCII, so a match can neither start nor end inside a
    multi-byte rune. *)
Module regexp.

Inductive Regexp :=
| Lit (s : string)                 (* literal text *)
| Star (cls : ascii -> bool)       (* [c*], greedy *)
| Plus (cls : ascii -> bool)       (* [c+], greedy *)
| Cat (r1 r2 : Regexp)             (* concatenation *)
| Group (r : Regexp).              (* [( ... )], a capture group *)

(** Character classes. *)
Definition digit (c : ascii) : bool :=
  (48 <=? nat_of_ascii c)%nat && (nat_of_ascii c <=? 57)%nat.   (* \d *)
Definition anyNotNL (c : ascii) : bool :=
  negb (Ascii.eqb c "010"%char).                                (* .  *)
Definition oneOf (set : string) (c : ascii) : bool :=
  existsb (Ascii.eqb c) (list_ascii_of_string set).             (* [..] *)

Fixpoint NumSubexp (r : Regexp) : nat :=
  match r with
  | Lit _ | Star _ | Plus _ => 0
  | Cat r1 r2 => NumSubexp r1 + NumSubexp r2
  | Group r => S (NumSubexp r)
  end.

(** [trimPrefix l s] is [Some rest] when [s = l ++ rest]. *)
Fixpoint trimPrefix (l s : string) : option string :=
  match l, s with
  | EmptyString, _ => Some s
  | String a l', String c s' =>
      if Ascii.eqb c a then trimPrefix l' s' else None
  | String _ _, EmptyString => None
  end.

(** The ways [cls*] can consume a prefix of [s], longest first; each is
    (text consumed, text left). *)
Fixpoint star (cls : ascii -> bool) (s : string) : list (string * string) :=
  match s with
  | EmptyString => [(EmptyString, EmptyString)]
  | String c s' =>
      if cls c
      then map (fun wr => (String c (fst wr), snd wr)) (star cls s')
             ++ [(EmptyString, s)]
      else [(EmptyString, s)]
  end.

(** One way of matching: text consumed, text left, submatches of the
    groups in the order of their opening parentheses. *)
Definition thread : Type := string * string * list string.

(** All ways [r] matches a prefix of [s], in the order a backtracking
    matcher tries them. *)
Fixpoint run (r : Regexp) (s : string) : list thread :=
  match r with
  | Lit l =>
      match trimPrefix l s with
      | Some rest => [(l, rest, [])]
      | None => []
      end
  | Star cls => map (fun wr => (fst wr, snd wr, [])) (star cls s)
  | Plus cls =>
      match s with
      | EmptyString => []
      | String c s' =>
          if cls c
          then map (fun wr => (String c (fst wr), snd wr, [])) (star cls s')
          else []
      end
  | Cat r1 r2 =>
      flat_map
        (fun t1 : thread =>
           let '(w1, rest1, caps1) := t1 in
           map (fun t2 : thread =>
                  let '(w2, rest2, caps2) := t2 in
                  ((w1 ++ w2)%string, rest2, caps1 ++ caps2))
               (run r2 rest1))
        (run r1 s)
  | Group r =>
      map (fun t : thread =>
             let '(w, rest, caps) := t in (w, rest, w :: caps))
          (run r s)
  end.

(** [FindStringSubmatch], a method of a compiled pattern: the leftmost
    match; element 0 is the text of the whole match, then one element
    per group.  The nil slice of "no match" is the empty list. *)
Fixpoint FindStringSubmatch (re : Regexp) (s : string) : list string :=
  match run re s with
  | (w, _, caps) :: _ => w :: caps
  | [] =>
      match s with
      | EmptyString => []
      | String _ s' => FindStringSubmatch re s'
      end
  end.

(** Every byte of [w] is in the class. *)
Definition allOf (cls : ascii -> bool) (w : string) : bool :=
  forallb cls (list_ascii_of_string w).

(** The language of a pattern: [Matches r w caps] when [r] matches the
    whole of [w] with submatches [caps]. *)
Inductive Matches : Regexp -> string -> list string -> Prop :=
| MLit l : Matches (Lit l) l []
| MStar cls w : allOf cls w = true -> Matches (Star cls) w []
| MPlus cls w :
    w <> EmptyString -> allOf cls w = true -> Matches (Plus cls) w []
| MCat r1 r2 w1 w2 caps1 caps2 :
    Matches r1 w1 caps1 -> Matches r2 w2 caps2 ->
    Matches (Cat r1 r2) (w1 ++ w2)%string (caps1 ++ caps2)
| MGroup r w caps : Matches r w caps -> Matches (Group r) w (w :: caps).

End regexp.

(** ** Package strconv *)
Module strconv.
Local Open Scope Z_scope.

Definition maxUint64 : Z := 2 ^ 64 - 1.

Definition isDigit (d : ascii) : bool :=
  (48 <=? nat_of_ascii d)%nat && (nat_of_ascii d <=? 57)%nat.

(** The digit loop of [ParseUint] for base 10 and 64 bits, with [n] the
    [uint64] accumulator: a byte that is no digit is a syntax error; a
    product or a sum that leaves [uint64] is a range error. *)
Fixpoint parseUintLoop (s : string) (n : Z) : Z * option NumErr :=
  match s with
  | EmptyString => (n, None)
  | String d s' =>
      if isDigit d then
        let v := Z.of_nat (nat_of_ascii d) - 48 in
        let cutoff := maxUint64 / 10 + 1 in
        if n >=? cutoff then (maxUint64, Some ErrRange)
        else
          let n := (n * 10) mod 2 ^ 64 in
          let n1 := (n + v) mod 2 ^ 64 in
          if (n1 <? n) || (n1 >? maxUint64) then (maxUint64, Some ErrRange)
          else parseUintLoop s' n1
      else (0, Some ErrSyntax)
  end.

(** [strconv.ParseUint(s, 10, 64)], the error without its wrapper. *)
Definition ParseUint (s : string) : Z * option NumErr :=
  match s with
  | EmptyString => (0, Some ErrSyntax)
  | _ => parseUintLoop s 0
  end.

(** [strconv.ParseInt(s, 10, 64)] *)
Definition ParseInt (s : string) : Z * option error :=
  let fnParseInt := "ParseInt" in
  match s with
  | EmptyString => (0, Some (NumError fnParseInt s ErrSyntax))
  | String c s' =>
      let s0 := s in
      let '(neg, s) :=
        if Ascii.eqb c "+" then (false, s')
        else if Ascii.eqb c "-" then (true, s')
        else (false, s) in
      match ParseUint s with
      | (_, Some ErrSyntax) => (0, Some (NumError fnParseInt s0 ErrSyntax))
      | (un, _) =>
          let cutoff := 2 ^ 63 in
          if negb neg && (un >=? cutoff)
          then (cutoff - 1, Some (NumError fnParseInt s0 ErrRange))
          else if neg && (un >? cutoff)
          then (- cutoff, Some (NumError fnParseInt s0 ErrRange))
          else (if neg then - un else un, None)
      end
  end.

End strconv.

(** ** Packages os and io/ioutil

    The file system as the collector sees it: what [os.Stat] and
    [ioutil.ReadFile] answer for a path.  The [FileInfo] of [Stat] is
    dropped by the caller and is left out. *)
Record FileSystem := {
  Stat : string -> option error;
  ReadFile : string -> string + error
}.

(** [os.IsNotExist] *)
Definition IsNotExist (err : option error) : bool :=
  match err with
  | Some (PathError _ _ notExist _) => notExist
  | _ => false
  end.

(** [fmt.Errorf]; the call sites build the formatted text. *)
Definition Errorf (msg : string) : error := errorString msg.

(** ** Package prometheus: descriptors and constant metrics

    Every value the collector sends is a whole number: the constant 0
    or 1, or the conversion [float64(x)] of an [int64].  A [float64]
    that holds a whole number is carried as that number. *)
Module prometheus.

Inductive ValueType := CounterValue | GaugeValue | UntypedValue.

Record Desc := {
  fqName : string;
  help : string;
  variableLabels : list string
}.

Record Metric := {
  desc : Desc;
  valType : ValueType;
  val : Z;
  labelValues : list string
}.

Definition BuildFQName (namespace subsystem name : string) : string :=
  if String.eqb name "" then ""
  else if negb (String.eqb namespace "") && negb (String.eqb subsystem "")
  then (namespace ++ "_" ++ subsystem ++ "_" ++ name)%string
  else if negb (String.eqb namespace "")
  then (namespace ++ "_" ++ name)%string
  else if negb (String.eqb subsystem "")
  then (subsystem ++ "_" ++ name)%string
  else name.

(** [NewDesc] with no constant labels. *)
Definition NewDesc (fqName help : string) (variableLabels : list string)
  : Desc :=
  {| fqName := fqName; help := help; variableLabels := variableLabels |}.

(** [MustNewConstMetric] panics ([None]) when the number of label
    values is not the number of variable labels of the descriptor. *)
Definition MustNewConstMetric (d : Desc) (valueType : ValueType)
    (value : Z) (labelValues : list string) : option Metric :=
  if Nat.eqb (length labelValues) (length (variableLabels d))
  then Some {| desc := d; valType := valueType; val := value;
               labelValues := labelValues |}
  else None.

End prometheus.

(** Go's conversion [float64(x)] of an [int64]: [x] rounded to the 53
    significant bits of a [float64], to nearest, ties to even.  No
    [int64] is out of the range of [float64]; the result is a whole
    number. *)
Definition float64 (x : Z) : Z :=
  let a := Z.abs x in
  if (a <? 2 ^ 53)%Z then x
  else
    let e := (Z.log2 a - 52)%Z in
    let q := (a / 2 ^ e)%Z in
    let r := (a mod 2 ^ e)%Z in
    let half := (2 ^ (e - 1))%Z in
    let q := if (r >? half)%Z || ((r =? half)%Z && Z.odd q)
             then (q + 1)%Z else q in
    (Z.sgn x * (q * 2 ^ e))%Z.
Arguments float64 : simpl never.

(** ** Package collector, file mdadm.go *)

Import strings regexp strconv prometheus.

(** What a call gives back: the returned value together with the
    returned [error] ([None] is [nil]), or a run-time panic. *)
Inductive outcome (A : Type) : Type :=
| Return (a : A) (err : option error)
| Panicked.
Arguments Return {A} a err.
Arguments Panicked {A}.

Definition statusfile : string := "/proc/mdstat".

(** [(\d+) blocks .*\[(\d+)/(\d+)\] \[[U_]+\]] *)
Definition statuslineRE : Regexp :=
  Cat (Group (Plus digit))
 (Cat (Lit " blocks ")
 (Cat (Star anyNotNL)
 (Cat (Lit "[")
 (Cat (Group (Plus digit))
 (Cat (Lit "/")
 (Cat (Group (Plus digit))
 (Cat (Lit "] [")
 (Cat (Plus (oneOf "U_"))
      (Lit "]"))))))))).

(** [\((\d+)/\d+\)] *)
Definition buildlineRE : Regexp :=
  Cat (Lit "(")
 (Cat (Group (Plus digit))
 (Cat (Lit "/")
 (Cat (Plus digit)
      (Lit ")")))).

Record mdStatus := {
  mdName : string;
  isActive : bool;
  disksActive : Z;
  disksTotal : Z;
  blocksTotal : Z;
  blocksSynced : Z
}.

(** Returns [(active, total, size)]. *)
Definition evalStatusline (statusline : string) : outcome (Z * Z * Z) :=
  let matches := FindStringSubmatch statuslineRE statusline in
  if (length matches <? 3 + 1)%nat then
    Return (0, 0, 0)%Z
      (Some (Errorf ("too few matches found in statusline: " ++ statusline)))
  else if (3 + 1 <? length matches)%nat then
    Return (0, 0, 0)%Z
      (Some (Errorf ("too many matches found in statusline: " ++ statusline)))
  else
    match nth_error matches 1 with
    | None => Panicked
    | Some m1 =>
    match ParseInt m1 with
    | (_, Some err) =>
        Return (0, 0, 0)%Z
          (Some (Errorf (Error err ++ " in statusline: " ++ statusline)))
    | (size, None) =>
    match nth_error matches 2 with
    | None => Panicked
    | Some m2 =>
    match ParseInt m2 with
    | (_, Some err) =>
        Return (0, 0, 0)%Z
          (Some (Errorf (Error err ++ " in statusline: " ++ statusline)))
    | (total, None) =>
    match nth_error matches 3 with
    | None => Panicked
    | Some m3 =>
    match ParseInt m3 with
    | (_, Some err) =>
        Return (0, 0, 0)%Z
          (Some (Errorf (Error err ++ " in statusline: " ++ statusline)))
    | (active, None) => Return (active, total, size) None
    end end end end end end.

(** Gets the size that has already been synced out of the sync-line. *)
Definition evalBuildline (buildline : string) : outcome Z :=
  let matches := FindStringSubmatch buildlineRE buildline in
  if (length matches <? 1 + 1)%nat then
    Return 0%Z
      (Some (Errorf ("too few matches found in buildline: " ++ buildline)))
  else if (1 + 1 <? length matches)%nat then
    Return 0%Z
      (Some (Errorf ("too many matches found in buildline: " ++ buildline)))
  else
    match nth_error matches 1 with
    | None => Panicked
    | Some m1 =>
    match ParseInt m1 with
    | (_, Some err) =>
        Return 0%Z
          (Some (Errorf (Error err ++ " in buildline: " ++ buildline)))
    | (syncedSize, None) => Return syncedSize None
    end end.

(** One pass through the body of the [for i, l := range lines] loop of
    [parseMdstat]: [continue], a record appended to [mdStates], a
    [return] with an error, or a panic.  [currentMD] is assigned before
    it is read in every pass, so no pass depends on an earlier one. *)
Inductive step :=
| Continue
| Append (md : mdStatus)
| Exit (err : error)
| Panic.

Definition loopBody (lines : list string) (i : nat) (l : string) : step :=
  if String.eqb l "" then Continue
  else
    match l with
    | EmptyString => Panic                                   (* l[0] *)
    | String l0 _ =>
    if Ascii.eqb l0 " " then Continue
    else if HasPrefix l "Personalities" || HasPrefix l "unused" then Continue
    else
      let mainLine := Split l " " in
      if (length mainLine <? 3)%nat then
        Exit (Errorf ("error parsing mdline: " ++ l))
      else
        match nth_error mainLine 0, nth_error mainLine 2 with
        | Some currentMD, Some state =>
        let isActive := String.eqb state "active" in
        if (length lines <=? i + 3)%nat then
          Exit (Errorf ("error parsing " ++ statusfile ++ ": entry for "
                          ++ currentMD ++ " has fewer lines than expected"))
        else
          match nth_error lines (i + 1) with
          | None => Panic
          | Some statusline =>
          match evalStatusline statusline with
          | Panicked => Panic
          | Return _ (Some err) =>
              Exit (Errorf ("error parsing " ++ statusfile ++ ": " ++ Error err))
          | Return (active, total, size) None =>
          match nth_error lines (i + 2) with
          | None => Panic
          | Some bitmapline =>
          let j := if Contains bitmapline "bitmap" then i + 3 else i + 2 in
          match nth_error lines j with
          | None => Panic
          | Some syncline =>
          if Contains syncline "recovery" || Contains syncline "resync" then
            match evalBuildline syncline with
            | Panicked => Panic
            | Return _ (Some err) =>
                Exit (Errorf ("error parsing " ++ statusfile ++ ": "
                                ++ Error err))
            | Return syncedBlocks None =>
                Append (Build_mdStatus currentMD isActive active total size
                                       syncedBlocks)
            end
          else
            Append (Build_mdStatus currentMD isActive active total size size)
          end end end end
        | _, _ => Panic
        end
    end.

(** The [range] loop: [rest] is what is left of [lines] from index [i]
    on, [mdStates] the records appended so far. *)
Fixpoint rangeLines (lines rest : list string) (i : nat)
    (mdStates : list mdStatus) : outcome (list mdStatus) :=
  match rest with
  | [] => Return mdStates None
  | l :: rest' =>
      match loopBody lines i l with
      | Continue => rangeLines lines rest' (S i) mdStates
      | Append md => rangeLines lines rest' (S i) (mdStates ++ [md])
      | Exit err => Return mdStates (Some err)
      | Panic => Panicked
      end
  end.

(** Parses an mdstat-file and returns a struct with the relevant infos. *)
Definition parseMdstat (fs : FileSystem) (mdStatusFilePath : string)
  : outcome (list mdStatus) :=
  match ReadFile fs mdStatusFilePath with
  | inr err =>
      Return [] (Some (Errorf ("error parsing " ++ statusfile ++ ": "
                                 ++ Error err)))
  | inl content =>
      let lines := Split content "010"%char in
      rangeLines lines lines 0 []
  end.

Section Collector.

(** [Namespace] is a constant of the package declared in another
    file. *)
Variable Namespace : string.

Definition isActiveDesc : Desc :=
  NewDesc (BuildFQName Namespace "md" "is_active")
    "Indicator whether the md-device is active or not." ["device"].

Definition disksActiveDesc : Desc :=
  NewDesc (BuildFQName Namespace "md" "disks_active")
    "Number of active disks of device." ["device"].

Definition disksTotalDesc : Desc :=
  NewDesc (BuildFQName Namespace "md" "disks")
    "Total number of disks of device." ["device"].

Definition blocksTotalDesc : Desc :=
  NewDesc (BuildFQName Namespace "md" "blocks")
    "Total number of blocks on device." ["device"].

Definition blocksSyncedDesc : Desc :=
  NewDesc (BuildFQName Namespace "md" "blocks_synced")
    "Number of blocks synced on device." ["device"].

(** [ch <- m]: the channel is the list of what was sent, [None] once a
    panic has happened. *)
Definition send (ch : option (list Metric)) (m : option Metric)
  : option (list Metric) :=
  match ch, m with
  | Some sent, Some m => Some (sent ++ [m])
  | _, _ => None
  end.

(** The body of the [for _, mds := range mdstate] loop of [Update];
    the debug log line leaves no trace in the model. *)
Definition updateBody (ch : option (list Metric)) (mds : mdStatus)
  : option (list Metric) :=
  let isActiveFloat := if isActive mds then 1%Z else 0%Z in
  let ch := send ch (MustNewConstMetric isActiveDesc GaugeValue
                       isActiveFloat [mdName mds]) in
  let ch := send ch (MustNewConstMetric disksActiveDesc GaugeValue
                       (float64 (disksActive mds)) [mdName mds]) in
  let ch := send ch (MustNewConstMetric disksTotalDesc GaugeValue
                       (float64 (disksTotal mds)) [mdName mds]) in
  let ch := send ch (MustNewConstMetric blocksTotalDesc GaugeValue
                       (float64 (blocksTotal mds)) [mdName mds]) in
  let ch := send ch (MustNewConstMetric blocksSyncedDesc GaugeValue
                       (float64 (blocksSynced mds)) [mdName mds]) in
  ch.

(** [Update]: the returned value is what the pass sent on [ch]. *)
Definition Update (fs : FileSystem) : outcome (list Metric) :=
  let err := Stat fs statusfile in
  if IsNotExist err then Return [] None
  else
    match err with
    | Some _ => Return [] err
    | None =>
        match parseMdstat fs statusfile with
        | Panicked => Panicked
        | Return _ (Some err) =>
            Return [] (Some (Errorf ("error parsing " ++ statusfile ++ ": "
                                       ++ Error err)))
        | Return mdstate None =>
            match fold_left updateBody mdstate (Some []) with
            | Some sent => Return sent None
            | None => Panicked
            end
        end
    end.

End Collector.

(** ** Notions used to state the properties *)

(** A file system on which the status file exists and has the given
    content. *)
Definition fsOf (content : string) : FileSystem :=
  {| Stat := fun _ => None; ReadFile := fun _ => inl content |}.

(** The lines the scan passes over: empty, starting with a space, or
    general information. *)
Definition skipped (l : string) : bool :=
  match l with
  | EmptyString => true
  | String l0 _ =>
      Ascii.eqb l0 " " || HasPrefix l "Personalities" || HasPrefix l "unused"
  end.

(** The lines of [rest] that are not skipped, each with its index in the
    text, [i] being the index of the first line of [rest]. *)
Fixpoint headersFrom (i : nat) (rest : list string) : list (nat * string) :=
  match rest with
  | [] => []
  | l :: rest' =>
      if skipped l then headersFrom (S i) rest'
      else (i, l) :: headersFrom (S i) rest'
  end.

(** The value in base 10 of a string of digits. *)
Fixpoint digitsValueFrom (s : string) (n : Z) : Z :=
  match s with
  | EmptyString => n
  | String d s' =>
      digitsValueFrom s' (n * 10 + (Z.of_nat (nat_of_ascii d) - 48))%Z
  end.

Definition digitsValue (s : string) : Z := digitsValueFrom s 0.

(** A non-empty string of ASCII digits: what [\d+] matches. *)
Definition number (s : string) : Prop :=
  s <> EmptyString /\ allOf digit s = true.

Definition maxInt64 : Z := (2 ^ 63 - 1)%Z.

(** Joins lines with newlines, the inverse of the split of the parser. *)
Definition unlines (ls : list string) : string :=
  String.concat (String "010"%char EmptyString) ls.

(** The report of the worked example and the record expected from it. *)
Definition exampleLines : list string :=
  [ "Personalities : [raid1]";
    "md0 : active raid1 sda1[0] sdb1[1]";
    "      1953511936 blocks [2/2] [UU]";
    "";
    "unused devices: <none>" ].

Definition exampleRecord : mdStatus :=
  {| mdName := "md0"; isActive := true; disksActive := 2; disksTotal := 2;
     blocksTotal := 1953511936; blocksSynced := 1953511936 |}.

(** A report of a device that is being recovered. *)
Definition recoveryLines : list string :=
  [ "md0 : active raid1 sda1[0] sdb1[1]";
    "      1953511936 blocks [2/1] [U_]";
    "      [==>..]  recovery = 45.0% (878780416/1953511936) finish=1min";
    "" ].

Definition recoveryRecord : mdStatus :=
  {| mdName := "md0"; isActive := true; disksActive := 1; disksTotal := 2;
     blocksTotal := 1953511936; blocksSynced := 878780416 |}.

(** A report whose status line has a second bracket group and whose
    sync line has a second ratio. *)
Definition extraGroupsLines : list string :=
  [ "md0 : active raid1 sda1[0] sdb1[1]";
    "      100 blocks [2/2] [3/3] [UU]";
    "      resync = 1% (1/2) (3/4)";
    "" ].

(** A report whose status line does not start with a space, followed by
    a line that does. *)
Definition unindentedLines : list string :=
  [ "md0 : active raid1";
    "100 blocks [2/2] [UU]";
    " 200 blocks [3/3] [UUU]";
    "";
    "" ].

(* ================================================================== *)
(** * Part II: theorems *)
(* ================================================================== *)

(** ** Strings *)

Lemma append_assoc_str (a b c : string) :
  ((a ++ b) ++ c)%string = (a ++ (b ++ c))%string.
Proof. induction a as [|x a IH]; simpl; congruence. Qed.

Lemma Split_nonempty (s : string) (sep : ascii) : Split s sep <> [].
Proof.
  destruct s as [|c s]; simpl; [discriminate|].
  destruct (Ascii.eqb c sep); [discriminate|].
  destruct (Split s sep); discriminate.
Qed.

(** ** Regular expressions *)

Lemma trimPrefix_sound (l s rest : string) :
  trimPrefix l s = Some rest -> s = (l ++ rest)%string.
Proof.
  revert s; induction l as [|a l IH]; intros s H; simpl in *.
  - congruence.
  - destruct s as [|c s]; [discriminate|].
    destruct (Ascii.eqb_spec c a); [|discriminate].
    subst; f_equal; auto.
Qed.

Lemma star_sound (cls : ascii -> bool) (s w rest : string) :
  In (w, rest) (star cls s) ->
  s = (w ++ rest)%string /\ allOf cls w = true.
Proof.
  revert w rest; induction s as [|c s IH]; intros w rest H; simpl in H.
  - destruct H as [H|[]]; inversion H; auto.
  - destruct (cls c) eqn:Hc.
    + apply in_app_or in H; destruct H as [H|[H|[]]].
      * apply in_map_iff in H; destruct H as [[w' rest'] [E H]].
        inversion E; subst; clear E.
        destruct (IH _ _ H) as [-> Hall].
        split; [reflexivity|]. unfold allOf in *; simpl. now rewrite Hc.
      * inversion H; auto.
    + destruct H as [H|[]]; inversion H; auto.
Qed.

Lemma run_sound (r : Regexp) : forall s w rest caps,
  In (w, rest, caps) (run r s) ->
  s = (w ++ rest)%string /\ Matches r w caps.
Proof.
  induction r as [l|cls|cls|r1 IH1 r2 IH2|r IH]; intros s w rest caps H;
    simpl in H.
  - destruct (trimPrefix l s) as [rest'|] eqn:E; [|contradiction].
    destruct H as [H|[]]; inversion H; subst.
    split; [now apply trimPrefix_sound | constructor].
  - apply in_map_iff in H; destruct H as [[w' rest'] [E H]].
    inversion E; subst; clear E.
    destruct (star_sound _ _ _ _ H); split; [assumption | now constructor].
  - destruct s as [|c s]; [contradiction|].
    destruct (cls c) eqn:Hc; [|contradiction].
    apply in_map_iff in H; destruct H as [[w' rest'] [E H]].
    inversion E; subst; clear E.
    destruct (star_sound _ _ _ _ H) as [-> Hall].
    split; [reflexivity|]. constructor; [discriminate|].
    unfold allOf in *; simpl. now rewrite Hc.
  - apply in_flat_map in H; destruct H as [[[w1 rest1] caps1] [H1 H]].
    apply in_map_iff in H; destruct H as [[[w2 rest2] caps2] [E H2]].
    inversion E; subst; clear E.
    destruct (IH1 _ _ _ _ H1) as [-> M1].
    destruct (IH2 _ _ _ _ H2) as [-> M2].
    split; [now rewrite append_assoc_str | now constructor].
  - apply in_map_iff in H; destruct H as [[[w' rest'] caps'] [E H]].
    inversion E; subst; clear E.
    destruct (IH _ _ _ _ H); split; [assumption | now constructor].
Qed.

Lemma Matches_NumSubexp (r : Regexp) (w : string) (caps : list string) :
  Matches r w caps -> length caps = NumSubexp r.
Proof.
  induction 1; simpl; auto.
  rewrite length_app; congruence.
Qed.

(** A match is a piece of the line, and belongs to the pattern. *)
Lemma FindStringSubmatch_sound (re : Regexp) : forall s m0 caps,
  FindStringSubmatch re s = m0 :: caps ->
  Matches re m0 caps /\
  exists before after, s = (before ++ m0 ++ after)%string.
Proof.
  induction s as [|c s IH]; intros m0 caps H; simpl in H.
  - destruct (run re "") as [|[[w rest] caps'] ts] eqn:E; [discriminate|].
    inversion H; subst; clear H.
    destruct (run_sound re "" m0 rest caps) as [Hs M];
      [rewrite E; now left|].
    split; [assumption|]. now exists ""%string, rest.
  - destruct (run re (String c s)) as [|[[w rest] caps'] ts] eqn:E.
    + destruct (IH _ _ H) as [M [before [after ->]]].
      split; [assumption|]. now exists (String c before), after.
    + inversion H; subst; clear H.
      destruct (run_sound re (String c s) m0 rest caps) as [Hs M];
        [rewrite E; now left|].
      split; [assumption|]. now exists ""%string, rest.
Qed.

(** The result of a search is nil or has one element for the match and
    one for each group. *)
Lemma FindStringSubmatch_length (re : Regexp) (s : string) :
  FindStringSubmatch re s = [] \/
  length (FindStringSubmatch re s) = S (NumSubexp re).
Proof.
  destruct (FindStringSubmatch re s) as [|m0 caps] eqn:E; [now left|right].
  apply FindStringSubmatch_sound in E; destruct E as [M _].
  simpl; f_equal; now apply (Matches_NumSubexp re m0).
Qed.

Ltac invert_matches :=
  repeat match goal with
         | H : Matches (Cat _ _) _ _ |- _ => inversion H; subst; clear H
         | H : Matches (Group _) _ _ |- _ => inversion H; subst; clear H
         | H : Matches (Plus _) _ _ |- _ => inversion H; subst; clear H
         | H : Matches (Star _) _ _ |- _ => inversion H; subst; clear H
         | H : Matches (Lit _) _ _ |- _ => inversion H; subst; clear H
         end.

(** The status-line pattern yields three submatches, each a number. *)
Lemma statusline_captures (m0 : string) (caps : list string) :
  Matches statuslineRE m0 caps ->
  exists c1 c2 c3,
    caps = [c1; c2; c3] /\ number c1 /\ number c2 /\ number c3.
Proof.
  unfold statuslineRE; intros M; invert_matches.
  eexists _, _, _; split; [reflexivity|].
  unfold number; auto.
Qed.

(** The build-line pattern yields one submatch, the number before the
    slash of a parenthesized ratio. *)
Lemma buildline_captures (m0 : string) (caps : list string) :
  Matches buildlineRE m0 caps ->
  exists n total,
    caps = [n] /\ number n /\ number total /\
    m0 = ("(" ++ n ++ "/" ++ total ++ ")")%string.
Proof.
  unfold buildlineRE; intros M; invert_matches.
  match goal with
  | Hn : allOf digit ?n = true, Ht : allOf digit ?t = true |- context [[?n]] =>
      exists n, t
  end.
  unfold number; repeat split; auto.
Qed.

(** ** Conversion of numbers *)

Lemma digit_value_bounds (d : ascii) :
  digit d = true -> (0 <= Z.of_nat (nat_of_ascii d) - 48 <= 9)%Z.
Proof.
  unfold digit; intros H; apply andb_prop in H; destruct H as [H1 H2].
  apply Nat.leb_le in H1, H2; lia.
Qed.

Lemma allOf_cons (cls : ascii -> bool) (c : ascii) (s : string) :
  allOf cls (String c s) = cls c && allOf cls s.
Proof. reflexivity. Qed.

Lemma digitsValueFrom_ge (s : string) : forall n,
  allOf digit s = true -> (0 <= n)%Z -> (n <= digitsValueFrom s n)%Z.
Proof.
  induction s as [|d s IH]; intros n Hall Hn; simpl; [lia|].
  rewrite allOf_cons in Hall; apply andb_prop in Hall; destruct Hall as [Hd Hs].
  pose proof (digit_value_bounds d Hd).
  specialize (IH (n * 10 + (Z.of_nat (nat_of_ascii d) - 48))%Z Hs); lia.
Qed.

Lemma parseUintLoop_digits (s : string) : forall n,
  allOf digit s = true -> (0 <= n <= maxUint64)%Z ->
  parseUintLoop s n =
    if (digitsValueFrom s n <=? maxUint64)%Z
    then (digitsValueFrom s n, None)
    else (maxUint64, Some ErrRange).
Proof.
  induction s as [|d s IH]; intros n Hall Hn.
  - simpl. destruct (Z.leb_spec n maxUint64); [reflexivity | lia].
  - rewrite allOf_cons in Hall; apply andb_prop in Hall; destruct Hall as [Hd Hs].
    pose proof (digit_value_bounds d Hd) as Hv.
    cbn [parseUintLoop digitsValueFrom].
    change (isDigit d) with (digit d); rewrite Hd.
    set (v := (Z.of_nat (nat_of_ascii d) - 48)%Z) in *.
    pose proof (digitsValueFrom_ge s (n * 10 + v)%Z Hs) as Hge.
    cbv zeta.
    change (maxUint64 / 10 + 1)%Z with 1844674407370955162%Z.
    change (2 ^ 64)%Z with 18446744073709551616%Z.
    unfold maxUint64 in *.
    change (2 ^ 64 - 1)%Z with 18446744073709551615%Z in *.
    destruct (Z.geb_spec n 1844674407370955162) as [Hc|Hc].
    + destruct (Z.leb_spec (digitsValueFrom s (n * 10 + v)) 18446744073709551615);
        [lia | reflexivity].
    + rewrite (Z.mod_small (n * 10)) by lia.
      destruct (Z_lt_le_dec (n * 10 + v) 18446744073709551616) as [Hs1|Hs1].
      * rewrite (Z.mod_small (n * 10 + v)) by lia.
        destruct (Z.ltb_spec (n * 10 + v) (n * 10)); [lia|].
        destruct (Z.gtb_spec (n * 10 + v) 18446744073709551615); [lia|].
        simpl orb. apply IH; [assumption | lia].
      * assert (Hm : ((n * 10 + v) mod 18446744073709551616
                      = n * 10 + v - 18446744073709551616)%Z).
        { symmetry; apply Z.mod_unique with (q := 1%Z); lia. }
        rewrite Hm.
        destruct (Z.ltb_spec (n * 10 + v - 18446744073709551616) (n * 10));
          [|lia].
        simpl orb.
        destruct (Z.leb_spec (digitsValueFrom s (n * 10 + v)) 18446744073709551615);
          [lia | reflexivity].
Qed.

(** [ParseInt] on a number: the value when it fits [int64], a range
    error otherwise; never a syntax error. *)
Lemma ParseInt_number (s : string) :
  number s ->
  ParseInt s =
    if (digitsValue s <=? maxInt64)%Z
    then (digitsValue s, None)
    else (maxInt64, Some (NumError "ParseInt" s ErrRange)).
Proof.
  intros [Hne Hall]. destruct s as [|c s]; [congruence|].
  pose proof Hall as Hall'.
  rewrite allOf_cons in Hall'; apply andb_prop in Hall'; destruct Hall' as [Hc _].
  assert (Hplus : Ascii.eqb c "+" = false).
  { destruct (Ascii.eqb_spec c "+"); [subst; discriminate | reflexivity]. }
  assert (Hminus : Ascii.eqb c "-" = false).
  { destruct (Ascii.eqb_spec c "-"); [subst; discriminate | reflexivity]. }
  unfold ParseInt. rewrite Hplus, Hminus. cbv zeta.
  unfold ParseUint.
  rewrite (parseUintLoop_digits (String c s) 0 Hall)
    by (unfold maxUint64; change (2 ^ 64 - 1)%Z with 18446744073709551615%Z; lia).
  fold (digitsValue (String c s)).
  set (n := digitsValue (String c s)).
  unfold maxUint64, maxInt64.
  change (2 ^ 64 - 1)%Z with 18446744073709551615%Z.
  change (2 ^ 63 - 1)%Z with 9223372036854775807%Z.
  change (2 ^ 63)%Z with 9223372036854775808%Z.
  simpl negb. simpl andb.
  destruct (Z.leb_spec n 18446744073709551615) as [H1|H1].
  - destruct (Z.geb_spec n 9223372036854775808) as [H2|H2];
      destruct (Z.leb_spec n 9223372036854775807) as [H3|H3];
      try lia; reflexivity.
  - destruct (Z.leb_spec n 9223372036854775807) as [H3|H3]; [lia|].
    reflexivity.
Qed.

(** ** The two line evaluators *)

(** A successful [evalStatusline] comes from a match with three
    submatches, converted in the order size, total, active. *)
Lemma evalStatusline_ok_inv (line : string) (active total size : Z) :
  evalStatusline line = Return (active, total, size) None ->
  exists m0 c1 c2 c3,
    FindStringSubmatch statuslineRE line = [m0; c1; c2; c3] /\
    ParseInt c1 = (size, None) /\
    ParseInt c2 = (total, None) /\
    ParseInt c3 = (active, None).
Proof.
  unfold evalStatusline.
  destruct (FindStringSubmatch statuslineRE line)
    as [|m0 [|c1 [|c2 [|c3 [|x r]]]]]; simpl; try discriminate.
  destruct (ParseInt c1) as [v1 [e1|]] eqn:E1; [discriminate|].
  destruct (ParseInt c2) as [v2 [e2|]] eqn:E2; [discriminate|].
  destruct (ParseInt c3) as [v3 [e3|]] eqn:E3; [discriminate|].
  intros H; inversion H; subst.
  now exists m0, c1, c2, c3.
Qed.

Lemma evalBuildline_ok_inv (line : string) (synced : Z) :
  evalBuildline line = Return synced None ->
  exists m0 n,
    FindStringSubmatch buildlineRE line = [m0; n] /\
    ParseInt n = (synced, None).
Proof.
  unfold evalBuildline.
  destruct (FindStringSubmatch buildlineRE line)
    as [|m0 [|n [|x r]]]; simpl; try discriminate.
  destruct (ParseInt n) as [v [e|]] eqn:E1; [discriminate|].
  intros H; inversion H; subst.
  now exists m0, n.
Qed.

(** The error of a capture that does not fit [int64]. *)
Lemma ParseInt_number_cases (c : string) :
  number c ->
  ((digitsValue c <= maxInt64)%Z /\ ParseInt c = (digitsValue c, None)) \/
  ((maxInt64 < digitsValue c)%Z /\
   ParseInt c = (maxInt64, Some (NumError "ParseInt" c ErrRange))).
Proof.
  intros Hc. rewrite (ParseInt_number c Hc).
  destruct (Z.leb_spec (digitsValue c) maxInt64); [left | right]; auto.
Qed.

(** What [evalStatusline] returns, by the result of the search. *)
Lemma evalStatusline_cases (line : string) :
  (FindStringSubmatch statuslineRE line = [] /\
   evalStatusline line =
     Return (0, 0, 0)%Z
       (Some (Errorf ("too few matches found in statusline: " ++ line))))
  \/
  (exists m0 c1 c2 c3,
      FindStringSubmatch statuslineRE line = [m0; c1; c2; c3] /\
      number c1 /\ number c2 /\ number c3 /\
      ((Forall (fun c => (digitsValue c <= maxInt64)%Z) [c1; c2; c3] /\
        evalStatusline line =
          Return (digitsValue c3, digitsValue c2, digitsValue c1) None)
       \/
       (exists c, In c [c1; c2; c3] /\ (maxInt64 < digitsValue c)%Z /\
          evalStatusline line =
            Return (0, 0, 0)%Z
              (Some (Errorf (Error (NumError "ParseInt" c ErrRange)
                               ++ " in statusline: " ++ line)))))).
Proof.
  destruct (FindStringSubmatch statuslineRE line) as [|m0 caps] eqn:E.
  - left; split; [reflexivity|]. unfold evalStatusline; now rewrite E.
  - right.
    destruct (FindStringSubmatch_sound _ _ _ _ E) as [M _].
    destruct (statusline_captures _ _ M) as (c1 & c2 & c3 & -> & N1 & N2 & N3).
    exists m0, c1, c2, c3. repeat (split; [assumption || reflexivity|]).
    unfold evalStatusline; rewrite E; simpl.
    destruct (ParseInt_number_cases c1 N1) as [[B1 ->]|[B1 ->]];
      [|right; exists c1; simpl; auto].
    destruct (ParseInt_number_cases c2 N2) as [[B2 ->]|[B2 ->]];
      [|right; exists c2; simpl; auto].
    destruct (ParseInt_number_cases c3 N3) as [[B3 ->]|[B3 ->]];
      [|right; exists c3; simpl; auto 6].
    left; split; [|reflexivity]. repeat constructor; assumption.
Qed.

(** What [evalBuildline] returns, by the result of the search. *)
Lemma evalBuildline_cases (line : string) :
  (FindStringSubmatch buildlineRE line = [] /\
   evalBuildline line =
     Return 0%Z
       (Some (Errorf ("too few matches found in buildline: " ++ line))))
  \/
  (exists m0 n total,
      FindStringSubmatch buildlineRE line = [m0; n] /\
      number n /\ number total /\
      m0 = ("(" ++ n ++ "/" ++ total ++ ")")%string /\
      (((digitsValue n <= maxInt64)%Z /\
        evalBuildline line = Return (digitsValue n) None)
       \/
       ((maxInt64 < digitsValue n)%Z /\
        evalBuildline line =
          Return 0%Z
            (Some (Errorf (Error (NumError "ParseInt" n ErrRange)
                             ++ " in buildline: " ++ line)))))).
Proof.
  destruct (FindStringSubmatch buildlineRE line) as [|m0 caps] eqn:E.
  - left; split; [reflexivity|]. unfold evalBuildline; now rewrite E.
  - right.
    destruct (FindStringSubmatch_sound _ _ _ _ E) as [M _].
    destruct (buildline_captures _ _ M) as (n & total & -> & N1 & N2 & Hm).
    exists m0, n, total. repeat (split; [assumption || reflexivity|]).
    unfold evalBuildline; rewrite E; simpl.
    destruct (ParseInt_number_cases n N1) as [[B1 ->]|[B1 ->]];
      [left | right]; auto.
Qed.

Lemma evalStatusline_returns (line : string) :
  exists v err, evalStatusline line = Return v err.
Proof.
  destruct (evalStatusline_cases line)
    as [[_ ->]|(m0 & c1 & c2 & c3 & _ & _ & _ & _ & [[_ ->]|(c & _ & _ & ->)])];
    eauto.
Qed.

Lemma evalBuildline_returns (line : string) :
  exists v err, evalBuildline line = Return v err.
Proof.
  destruct (evalBuildline_cases line)
    as [[_ ->]|(m0 & n & total & _ & _ & _ & _ & [[_ ->]|[_ ->]])];
    eauto.
Qed.

(** ** One pass of the scan *)

Lemma Split_nth_error (l : string) (k : nat) :
  (k < length (Split l " "))%nat ->
  exists tok, nth_error (Split l " ") k = Some tok.
Proof.
  intros H. destruct (nth_error (Split l " ") k) as [tok|] eqn:E; eauto.
  apply nth_error_None in E; lia.
Qed.

(** A skipped line ends its pass at once. *)
Lemma loopBody_skipped (lines : list string) (i : nat) (l : string) :
  skipped l = true -> loopBody lines i l = Continue.
Proof.
  unfold loopBody, skipped. destruct l as [|l0 tl]; [reflexivity|].
  change (String.eqb (String l0 tl) "") with false. cbv iota.
  destruct (Ascii.eqb l0 " "); [reflexivity|]. cbn [orb].
  now intros ->.
Qed.

(** What a pass that appends a record has read, and where. *)
Lemma loopBody_Append_inv (lines : list string) (i : nat) (l : string)
    (md : mdStatus) :
  loopBody lines i l = Append md ->
  skipped l = false /\
  (3 <= length (Split l " "))%nat /\
  (i + 3 < length lines)%nat /\
  nth_error (Split l " ") 0 = Some (mdName md) /\
  (exists state,
      nth_error (Split l " ") 2 = Some state /\
      isActive md = String.eqb state "active") /\
  (exists statusline,
      nth_error lines (i + 1) = Some statusline /\
      evalStatusline statusline =
        Return (disksActive md, disksTotal md, blocksTotal md) None) /\
  (exists bitmapline syncline,
      nth_error lines (i + 2) = Some bitmapline /\
      nth_error lines (if Contains bitmapline "bitmap" then i + 3 else i + 2)
        = Some syncline /\
      if Contains syncline "recovery" || Contains syncline "resync"
      then evalBuildline syncline = Return (blocksSynced md) None
      else blocksSynced md = blocksTotal md).
Proof.
  unfold loopBody, skipped. destruct l as [|l0 tl]; [discriminate|].
  change (String.eqb (String l0 tl) "") with false. cbv iota.
  destruct (Ascii.eqb l0 " "); [discriminate|]. cbn [orb].
  destruct (HasPrefix (String l0 tl) "Personalities"
            || HasPrefix (String l0 tl) "unused"); [discriminate|].
  cbv zeta. set (mainLine := Split (String l0 tl) " ").
  destruct (length mainLine <? 3)%nat eqn:Hlen; [discriminate|].
  apply Nat.ltb_ge in Hlen.
  destruct (nth_error mainLine 0) as [currentMD|]; [|discriminate].
  destruct (nth_error mainLine 2) as [state|]; [|discriminate].
  destruct (length lines <=? i + 3)%nat eqn:Hlines; [discriminate|].
  apply Nat.leb_gt in Hlines.
  destruct (nth_error lines (i + 1)) as [statusline|]; [|discriminate].
  destruct (evalStatusline statusline) as [[[active total] size] [err|]|]
    eqn:Hes; try discriminate.
  destruct (nth_error lines (i + 2)) as [bitmapline|]; [|discriminate].
  destruct (nth_error lines
              (if Contains bitmapline "bitmap" then i + 3 else i + 2))
    as [syncline|] eqn:Hj; [|discriminate].
  destruct (Contains syncline "recovery" || Contains syncline "resync") eqn:Hc.
  - destruct (evalBuildline syncline) as [synced [err|]|] eqn:Heb;
      try discriminate.
    intros H; inversion H; subst; simpl.
    split; [reflexivity|]. split; [assumption|]. split; [assumption|].
    split; [reflexivity|]. split; [exists state; split; reflexivity|].
    split; [exists statusline; split; [reflexivity | assumption]|].
    exists bitmapline, syncline. rewrite Hc. auto.
  - intros H; inversion H; subst; simpl.
    split; [reflexivity|]. split; [assumption|]. split; [assumption|].
    split; [reflexivity|]. split; [exists state; split; reflexivity|].
    split; [exists statusline; split; [reflexivity | assumption]|].
    exists bitmapline, syncline. rewrite Hc. auto.
Qed.

(** No pass panics: every index is guarded by a length test. *)
Lemma loopBody_no_panic (lines : list string) (i : nat) (l : string) :
  loopBody lines i l <> Panic.
Proof.
  unfold loopBody. destruct l as [|l0 tl]; [discriminate|].
  change (String.eqb (String l0 tl) "") with false. cbv iota.
  destruct (Ascii.eqb l0 " "); [discriminate|].
  destruct (HasPrefix (String l0 tl) "Personalities"
            || HasPrefix (String l0 tl) "unused"); [discriminate|].
  cbv zeta.
  destruct (length (Split (String l0 tl) " ") <? 3)%nat eqn:Hlen;
    [discriminate|].
  apply Nat.ltb_ge in Hlen.
  destruct (Split_nth_error (String l0 tl) 0) as [currentMD ->]; [lia|].
  destruct (Split_nth_error (String l0 tl) 2) as [state ->]; [lia|].
  destruct (length lines <=? i + 3)%nat eqn:Hlines; [discriminate|].
  apply Nat.leb_gt in Hlines.
  assert (Hidx : forall k, (k <= i + 3)%nat -> nth_error lines k <> None).
  { intros k Hk E. apply nth_error_None in E. lia. }
  destruct (nth_error lines (i + 1)) as [statusline|] eqn:Hs;
    [|exfalso; apply (Hidx (i + 1)%nat); [lia | assumption]].
  destruct (evalStatusline_returns statusline) as [[[active total] size] [err ->]].
  destruct err as [err|]; [discriminate|].
  destruct (nth_error lines (i + 2)) as [bitmapline|] eqn:Hb;
    [|exfalso; apply (Hidx (i + 2)%nat); [lia | assumption]].
  destruct (nth_error lines
              (if Contains bitmapline "bitmap" then i + 3 else i + 2))
    as [syncline|] eqn:Hj.
  2:{ exfalso. destruct (Contains bitmapline "bitmap");
        [apply (Hidx (i + 3)%nat) | apply (Hidx (i + 2)%nat)];
        solve [lia | assumption]. }
  destruct (Contains syncline "recovery" || Contains syncline "resync");
    [|discriminate].
  destruct (evalBuildline_returns syncline) as [synced [err ->]].
  destruct err; discriminate.
Qed.

Lemma rangeLines_returns (lines : list string) : forall rest i mdStates,
  exists mds err, rangeLines lines rest i mdStates = Return mds err.
Proof.
  induction rest as [|l rest IH]; intros i mdStates; simpl; [eauto|].
  pose proof (loopBody_no_panic lines i l) as Hnp.
  destruct (loopBody lines i l); eauto. congruence.
Qed.

(** Enters the body at a line that is not skipped: the three tests that
    [continue] are decided, the goal is left at the split of the line. *)
Ltac enter_section l lhead ltail H :=
  unfold loopBody; unfold skipped in H;
  destruct l as [|lhead ltail]; [discriminate H|];
  change (String.eqb (String lhead ltail) "") with false; cbv iota;
  let E := fresh "Hspace" in
  destruct (Ascii.eqb lhead " ") eqn:E; [discriminate H|];
  cbn [orb] in H; rewrite H; cbv zeta.

Lemma loopBody_few_tokens (lines : list string) (i : nat) (l : string) :
  skipped l = false ->
  (length (Split l " ") < 3)%nat ->
  loopBody lines i l = Exit (Errorf ("error parsing mdline: " ++ l)).
Proof.
  intros Hsk Hlen. enter_section l lhead ltail Hsk.
  apply Nat.ltb_lt in Hlen. now rewrite Hlen.
Qed.

Lemma loopBody_truncated (lines : list string) (i : nat) (l : string) :
  skipped l = false ->
  (3 <= length (Split l " "))%nat ->
  (length lines <= i + 3)%nat ->
  loopBody lines i l =
    Exit (Errorf ("error parsing " ++ statusfile ++ ": entry for "
                    ++ nth 0 (Split l " ") "" ++ " has fewer lines than expected")).
Proof.
  intros Hsk Hlen Hlines. enter_section l lhead ltail Hsk.
  destruct (Split_nth_error (String lhead ltail) 0) as [currentMD E0]; [lia|].
  destruct (Split_nth_error (String lhead ltail) 2) as [state E2]; [lia|].
  rewrite (nth_error_nth _ _ _ E0), E0, E2.
  apply Nat.ltb_ge in Hlen. rewrite Hlen.
  apply Nat.leb_le in Hlines. now rewrite Hlines.
Qed.



(** A line that is not skipped is taken for a device line: its pass
    appends a record or returns an error. *)
Lemma loopBody_Continue_iff (lines : list string) (i : nat) (l : string) :
  loopBody lines i l = Continue <-> skipped l = true.
Proof.
  split; [|apply loopBody_skipped].
  destruct (skipped l) eqn:Hsk; [reflexivity|]. intros H; exfalso; revert H.
  enter_section l lhead ltail Hsk.
  destruct (length (Split (String lhead ltail) " ") <? 3)%nat; [discriminate|].
  destruct (nth_error (Split (String lhead ltail) " ") 0); [|discriminate].
  destruct (nth_error (Split (String lhead ltail) " ") 2); [|discriminate].
  destruct (length lines <=? i + 3)%nat; [discriminate|].
  destruct (nth_error lines (i + 1)); [|discriminate].
  destruct (evalStatusline s1) as [[[active total] size] [err|]|];
    try discriminate.
  destruct (nth_error lines (i + 2)) as [bitmapline|]; [|discriminate].
  destruct (nth_error lines _) as [syncline|]; [|discriminate].
  destruct (Contains syncline "recovery" || Contains syncline "resync");
    [|discriminate].
  destruct (evalBuildline syncline) as [synced [err|]|]; discriminate.
Qed.

(** ** The search finds a match whenever there is one *)

Lemma trimPrefix_complete (l rest : string) :
  trimPrefix l (l ++ rest) = Some rest.
Proof.
  induction l as [|a l IH]; simpl; [reflexivity|].
  now rewrite Ascii.eqb_refl.
Qed.

Lemma star_has_empty (cls : ascii -> bool) (s : string) :
  In (EmptyString, s) (star cls s).
Proof.
  destruct s as [|c s]; simpl; [now left|].
  destruct (cls c); [apply in_or_app; right|]; now left.
Qed.

Lemma star_complete (cls : ascii -> bool) (w rest : string) :
  allOf cls w = true -> In (w, rest) (star cls (w ++ rest)).
Proof.
  induction w as [|c w IH]; intros Hall; simpl.
  - apply star_has_empty.
  - rewrite allOf_cons in Hall; apply andb_prop in Hall; destruct Hall as [Hc Hw].
    rewrite Hc. apply in_or_app; left.
    apply in_map_iff. exists (w, rest). split; [reflexivity | auto].
Qed.

Lemma run_complete (r : Regexp) (w : string) (caps : list string) :
  Matches r w caps -> forall rest, In (w, rest, caps) (run r (w ++ rest)).
Proof.
  induction 1 as [l|cls w Hall|cls w Hne Hall
                  |r1 r2 w1 w2 caps1 caps2 M1 IH1 M2 IH2|r w caps M IH];
    intros rest; simpl.
  - rewrite trimPrefix_complete. now left.
  - apply in_map_iff. exists (w, rest).
    split; [reflexivity | now apply star_complete].
  - destruct w as [|c w]; [congruence|]. simpl.
    rewrite allOf_cons in Hall; apply andb_prop in Hall; destruct Hall as [Hc Hw].
    rewrite Hc. apply in_map_iff. exists (w, rest).
    split; [reflexivity | now apply star_complete].
  - rewrite append_assoc_str. apply in_flat_map.
    exists (w1, (w2 ++ rest)%string, caps1). split; [apply IH1|].
    apply in_map_iff. exists (w2, rest, caps2).
    split; [reflexivity | apply IH2].
  - apply in_map_iff. exists (w, rest, caps). split; [reflexivity | apply IH].
Qed.

Lemma FindStringSubmatch_complete (re : Regexp) (m : string)
    (caps : list string) (after : string) :
  Matches re m caps ->
  forall before, FindStringSubmatch re (before ++ m ++ after) <> [].
Proof.
  intros M. pose proof (run_complete re m caps M after) as Hin.
  induction before as [|c before IH]; simpl.
  - destruct (m ++ after)%string as [|c s] eqn:E; simpl;
      destruct (run re _) as [|[[w r] cs] ts]; try discriminate;
      contradiction.
  - destruct (run re (String c (before ++ m ++ after)))
      as [|[[w r] cs] ts]; [exact IH | discriminate].
Qed.

(** The match that is returned starts at the leftmost place of the line
    where a match starts. *)
Lemma FindStringSubmatch_leftmost (re : Regexp) : forall s m0 caps,
  FindStringSubmatch re s = m0 :: caps ->
  exists before after,
    s = (before ++ m0 ++ after)%string /\
    forall before' m' after' caps',
      s = (before' ++ m' ++ after')%string ->
      Matches re m' caps' ->
      (String.length before <= String.length before')%nat.
Proof.
  induction s as [|c s IH]; intros m0 caps H; simpl in H.
  - destruct (run re "") as [|[[w rest] caps'] ts] eqn:E; [discriminate|].
    inversion H; subst; clear H.
    destruct (run_sound re "" m0 rest caps) as [Hs _]; [rewrite E; now left|].
    exists ""%string, rest. split; [exact Hs|]. intros; simpl; lia.
  - destruct (run re (String c s)) as [|[[w rest] caps'] ts] eqn:E.
    + destruct (IH _ _ H) as (before & after & -> & Hleft).
      exists (String c before), after. split; [reflexivity|].
      intros before' m' after' caps'' Hs M.
      destruct before' as [|c' before'].
      * exfalso. simpl in Hs.
        pose proof (run_complete re m' caps'' M after') as Hin.
        rewrite <- Hs, E in Hin. contradiction.
      * simpl in Hs. inversion Hs; subst c'.
        simpl. apply le_n_S. eapply Hleft; eauto.
    + inversion H; subst; clear H.
      destruct (run_sound re (String c s) m0 rest caps) as [Hs _];
        [rewrite E; now left|].
      exists ""%string, rest. split; [exact Hs|]. intros; simpl; lia.
Qed.

(** ** The properties of the specification *)

(** C1.  The three submatches of a status line go, in order, to
    [blocksTotal], [disksTotal] and [disksActive] of the record built
    from it; and the report of the worked example parses to the one
    record [exampleRecord]. *)
Theorem C1_statusline_capture_order :
  parseMdstat (fsOf (unlines exampleLines)) statusfile
    = Return [exampleRecord] None /\
  forall lines i l md statusline m0 c1 c2 c3,
    loopBody lines i l = Append md ->
    nth_error lines (i + 1) = Some statusline ->
    FindStringSubmatch statuslineRE statusline = [m0; c1; c2; c3] ->
    ParseInt c1 = (blocksTotal md, None) /\
    ParseInt c2 = (disksTotal md, None) /\
    ParseInt c3 = (disksActive md, None) /\
    blocksTotal md = digitsValue c1 /\
    disksTotal md = digitsValue c2 /\
    disksActive md = digitsValue c3.
Proof.
  split; [vm_compute; reflexivity|].
  intros lines i l md statusline m0 c1 c2 c3 Hbody Hs Hm.
  destruct (loopBody_Append_inv _ _ _ _ Hbody)
    as (_ & _ & _ & _ & _ & (sl & Hs' & He) & _).
  rewrite Hs in Hs'; inversion Hs'; subst sl; clear Hs'.
  destruct (evalStatusline_ok_inv _ _ _ _ He)
    as (m0' & c1' & c2' & c3' & Hm' & P1 & P2 & P3).
  rewrite Hm in Hm'; inversion Hm'; subst; clear Hm'.
  destruct (FindStringSubmatch_sound _ _ _ _ Hm) as [M _].
  destruct (statusline_captures _ _ M) as (d1 & d2 & d3 & E & N1 & N2 & N3).
  inversion E; subst; clear E.
  repeat (split; [assumption|]).
  destruct (ParseInt_number_cases _ N1) as [[_ Q1]|[_ Q1]];
    rewrite Q1 in P1; inversion P1.
  destruct (ParseInt_number_cases _ N2) as [[_ Q2]|[_ Q2]];
    rewrite Q2 in P2; inversion P2.
  destruct (ParseInt_number_cases _ N3) as [[_ Q3]|[_ Q3]];
    rewrite Q3 in P3; inversion P3.
  auto.
Qed.

Lemma C1_statusline_capture_order_witness :
  loopBody exampleLines 1 "md0 : active raid1 sda1[0] sdb1[1]"
    = Append exampleRecord /\
  nth_error exampleLines (1 + 1) = Some "      1953511936 blocks [2/2] [UU]" /\
  FindStringSubmatch statuslineRE "      1953511936 blocks [2/2] [UU]"
    = ["1953511936 blocks [2/2] [UU]"; "1953511936"; "2"; "2"] /\
  ParseInt "1953511936" = (blocksTotal exampleRecord, None) /\
  ParseInt "2" = (disksTotal exampleRecord, None) /\
  ParseInt "2" = (disksActive exampleRecord, None) /\
  blocksTotal exampleRecord = digitsValue "1953511936" /\
  disksTotal exampleRecord = digitsValue "2" /\
  disksActive exampleRecord = digitsValue "2".
Proof.
  split; [vm_compute; reflexivity|].
  split; [reflexivity|].
  split; [vm_compute; reflexivity|].
  apply (proj2 C1_statusline_capture_order exampleLines 1
           "md0 : active raid1 sda1[0] sdb1[1]" exampleRecord
           "      1953511936 blocks [2/2] [UU]"
           "1953511936 blocks [2/2] [UU]" "1953511936" "2" "2");
    vm_compute; reflexivity.
Defined.

(** C2, as stated, fails: a status line with a second bracket group and
    a sync line with a second ratio are both accepted, and the report
    made of them parses to a record.  The search returns its leftmost
    match only; the greedy [.*] makes the status line yield the last
    bracket group. *)
Lemma C2_extra_groups_accepted :
  evalStatusline "      100 blocks [2/2] [3/3] [UU]"
    = Return (3, 3, 100)%Z None /\
  evalBuildline "      resync = 1% (1/2) (3/4)" = Return 1%Z None /\
  parseMdstat (fsOf (unlines extraGroupsLines)) statusfile
    = Return [ {| mdName := "md0"; isActive := true; disksActive := 3;
                  disksTotal := 3; blocksTotal := 100; blocksSynced := 1 |} ]
        None.
Proof. repeat split; vm_compute; reflexivity. Qed.

(** C2, amended.  The result of a search never has more elements than
    the pattern has groups plus one.  It is nil exactly when no part of
    the line matches the pattern, and this is reported as "too few
    matches".  Otherwise it has one element for each group after the
    match, the match is the leftmost one of the line, and the line is
    accepted with the values of the submatches of that match, whatever
    else the line holds, unless a submatch is above 2^63 - 1, which is
    the only other error.  "Too many matches" is never returned. *)
Theorem C2_match_count_exact (line : string) :
  (FindStringSubmatch statuslineRE line = [] \/
   length (FindStringSubmatch statuslineRE line) = 3 + 1) /\
  (FindStringSubmatch buildlineRE line = [] \/
   length (FindStringSubmatch buildlineRE line) = 1 + 1) /\
  (FindStringSubmatch statuslineRE line = [] ->
   evalStatusline line =
     Return (0, 0, 0)%Z
       (Some (Errorf ("too few matches found in statusline: " ++ line)))) /\
  (FindStringSubmatch buildlineRE line = [] ->
   evalBuildline line =
     Return 0%Z
       (Some (Errorf ("too few matches found in buildline: " ++ line)))) /\
  (forall v,
     evalStatusline line <>
       Return v
         (Some (Errorf ("too many matches found in statusline: " ++ line)))) /\
  (forall v,
     evalBuildline line <>
       Return v
         (Some (Errorf ("too many matches found in buildline: " ++ line)))) /\
  (FindStringSubmatch statuslineRE line = [] <->
   ~ exists before m after caps,
       line = (before ++ m ++ after)%string /\ Matches statuslineRE m caps) /\
  (FindStringSubmatch buildlineRE line = [] <->
   ~ exists before m after caps,
       line = (before ++ m ++ after)%string /\ Matches buildlineRE m caps) /\
  (forall m0 caps,
     FindStringSubmatch statuslineRE line = m0 :: caps ->
     exists c1 c2 c3 before after,
       caps = [c1; c2; c3] /\
       number c1 /\ number c2 /\ number c3 /\
       line = (before ++ m0 ++ after)%string /\
       (forall before' m' after' caps',
          line = (before' ++ m' ++ after')%string ->
          Matches statuslineRE m' caps' ->
          (String.length before <= String.length before')%nat) /\
       ((Forall (fun c => (digitsValue c <= 2 ^ 63 - 1)%Z) [c1; c2; c3] /\
         evalStatusline line =
           Return (digitsValue c3, digitsValue c2, digitsValue c1) None)
        \/
        (exists c,
            In c [c1; c2; c3] /\ (2 ^ 63 - 1 < digitsValue c)%Z /\
            evalStatusline line =
              Return (0, 0, 0)%Z
                (Some (Errorf (Error (NumError "ParseInt" c ErrRange)
                                 ++ " in statusline: " ++ line)))))) /\
  (forall m0 caps,
     FindStringSubmatch buildlineRE line = m0 :: caps ->
     exists n total before after,
       caps = [n] /\
       number n /\ number total /\
       m0 = ("(" ++ n ++ "/" ++ total ++ ")")%string /\
       line = (before ++ m0 ++ after)%string /\
       (forall before' m' after' caps',
          line = (before' ++ m' ++ after')%string ->
          Matches buildlineRE m' caps' ->
          (String.length before <= String.length before')%nat) /\
       (((digitsValue n <= 2 ^ 63 - 1)%Z /\
         evalBuildline line = Return (digitsValue n) None)
        \/
        ((2 ^ 63 - 1 < digitsValue n)%Z /\
         evalBuildline line =
           Return 0%Z
             (Some (Errorf (Error (NumError "ParseInt" n ErrRange)
                              ++ " in buildline: " ++ line)))))).
Proof.
  split; [apply (FindStringSubmatch_length statuslineRE)|].
  split; [apply (FindStringSubmatch_length buildlineRE)|].
  split; [intros E; unfold evalStatusline; now rewrite E|].
  split; [intros E; unfold evalBuildline; now rewrite E|].
  split.
  { intros v.
    destruct (evalStatusline_cases line)
      as [[_ ->]|(m0 & c1 & c2 & c3 & _ & _ & _ & _
                  & [[_ ->]|(c & _ & _ & ->)])];
      simpl; intros H; inversion H. }
  split.
  { intros v.
    destruct (evalBuildline_cases line)
      as [[_ ->]|(m0 & n & total & _ & _ & _ & _ & [[_ ->]|[_ ->]])];
      simpl; intros H; inversion H. }
  split.
  { split.
    - intros E (before & m & after & caps & -> & M).
      exact (FindStringSubmatch_complete _ _ _ after M before E).
    - intros Hno.
      destruct (FindStringSubmatch statuslineRE line) as [|m0 caps] eqn:E;
        [reflexivity|].
      exfalso. apply Hno.
      destruct (FindStringSubmatch_sound _ _ _ _ E) as [M (b & a & Hs)].
      now exists b, m0, a, caps. }
  split.
  { split.
    - intros E (before & m & after & caps & -> & M).
      exact (FindStringSubmatch_complete _ _ _ after M before E).
    - intros Hno.
      destruct (FindStringSubmatch buildlineRE line) as [|m0 caps] eqn:E;
        [reflexivity|].
      exfalso. apply Hno.
      destruct (FindStringSubmatch_sound _ _ _ _ E) as [M (b & a & Hs)].
      now exists b, m0, a, caps. }
  split.
  - intros m0 caps Hm.
    destruct (FindStringSubmatch_leftmost _ _ _ _ Hm)
      as (before & after & Hs & Hleft).
    destruct (evalStatusline_cases line)
      as [[E _]|(m0' & c1 & c2 & c3 & E & N1 & N2 & N3 & Hres)].
    + rewrite E in Hm; discriminate.
    + rewrite Hm in E; injection E as E1 E2; subst caps m0.
      exists c1, c2, c3, before, after.
      split; [reflexivity|]. split; [exact N1|]. split; [exact N2|].
      split; [exact N3|]. split; [exact Hs|]. split; [exact Hleft|].
      exact Hres.
  - intros m0 caps Hm.
    destruct (FindStringSubmatch_leftmost _ _ _ _ Hm)
      as (before & after & Hs & Hleft).
    destruct (evalBuildline_cases line)
      as [[E _]|(m0' & n & total & E & Nn & Nt & Hshape & Hres)].
    + rewrite E in Hm; discriminate.
    + rewrite Hm in E; injection E as E1 E2; subst caps m0.
      exists n, total, before, after.
      split; [reflexivity|]. split; [exact Nn|]. split; [exact Nt|].
      split; [exact Hshape|]. split; [exact Hs|]. split; [exact Hleft|].
      exact Hres.
Qed.

Lemma C2_match_count_exact_witness :
  exists c1 c2 c3 before after,
    ["100"; "3"; "3"] = [c1; c2; c3] /\
    number c1 /\ number c2 /\ number c3 /\
    "      100 blocks [2/2] [3/3] [UU]"%string
      = (before ++ "100 blocks [2/2] [3/3] [UU]" ++ after)%string /\
    (forall before' m' after' caps',
       "      100 blocks [2/2] [3/3] [UU]"%string
         = (before' ++ m' ++ after')%string ->
       Matches statuslineRE m' caps' ->
       (String.length before <= String.length before')%nat) /\
    ((Forall (fun c => (digitsValue c <= 2 ^ 63 - 1)%Z) [c1; c2; c3] /\
      evalStatusline "      100 blocks [2/2] [3/3] [UU]" =
        Return (digitsValue c3, digitsValue c2, digitsValue c1) None)
     \/
     (exists c,
         In c [c1; c2; c3] /\ (2 ^ 63 - 1 < digitsValue c)%Z /\
         evalStatusline "      100 blocks [2/2] [3/3] [UU]" =
           Return (0, 0, 0)%Z
             (Some (Errorf (Error (NumError "ParseInt" c ErrRange)
                              ++ " in statusline: "
                              ++ "      100 blocks [2/2] [3/3] [UU]"))))).
Proof.
  apply (proj1 (proj2 (proj2 (proj2 (proj2 (proj2 (proj2 (proj2 (proj2
           (C2_match_count_exact "      100 blocks [2/2] [3/3] [UU]")))))))))
           "100 blocks [2/2] [3/3] [UU]" ["100"; "3"; "3"]).
  vm_compute; reflexivity.
Defined.

(** C3.  The parser is total and never panics: for every file system
    and path it returns a list of records together with an error or
    nil; so do the two line evaluators on every line. *)
Theorem C3_parser_never_panics :
  (forall fs path, exists mds err, parseMdstat fs path = Return mds err) /\
  (forall line, exists v err, evalStatusline line = Return v err) /\
  (forall line, exists v err, evalBuildline line = Return v err).
Proof.
  split; [|split; [apply evalStatusline_returns | apply evalBuildline_returns]].
  intros fs path. unfold parseMdstat.
  destruct (ReadFile fs path) as [content|err]; [|eauto].
  apply rangeLines_returns.
Qed.

(** C4.  At a line that is not skipped: with fewer than three tokens the
    parse returns the error that quotes the line; otherwise a record
    built from the line is named by the first token and is active
    exactly when the third token is "active". *)
Theorem C4_device_line_tokens
    (lines rest : list string) (i : nat) (mdStates : list mdStatus)
    (l : string) :
  skipped l = false ->
  ((length (Split l " ") < 3)%nat ->
   rangeLines lines (l :: rest) i mdStates
     = Return mdStates (Some (Errorf ("error parsing mdline: " ++ l)))) /\
  ((3 <= length (Split l " "))%nat ->
   forall md, loopBody lines i l = Append md ->
     mdName md = nth 0 (Split l " ") "" /\
     isActive md = String.eqb (nth 2 (Split l " ") "") "active" /\
     (isActive md = true <-> nth 2 (Split l " ") "" = "active")).
Proof.
  intros Hsk; split.
  - intros Hlen. simpl. now rewrite (loopBody_few_tokens lines i l Hsk Hlen).
  - intros _ md Hbody.
    destruct (loopBody_Append_inv _ _ _ _ Hbody)
      as (_ & _ & _ & H0 & (state & H2 & Hact) & _).
    rewrite (nth_error_nth _ _ _ H0), (nth_error_nth _ _ _ H2).
    split; [reflexivity|]. split; [assumption|].
    rewrite Hact. apply String.eqb_eq.
Qed.

Lemma C4_device_line_tokens_witness :
  skipped "md0 : active raid1 sda1[0] sdb1[1]" = false /\
  (3 <= length (Split "md0 : active raid1 sda1[0] sdb1[1]" " "))%nat /\
  loopBody exampleLines 1 "md0 : active raid1 sda1[0] sdb1[1]"
    = Append exampleRecord /\
  mdName exampleRecord = "md0" /\
  isActive exampleRecord = true /\
  skipped "md0" = false /\
  rangeLines ["md0"] ["md0"] 0 []
    = Return [] (Some (Errorf "error parsing mdline: md0")).
Proof.
  assert (Hsk : skipped "md0 : active raid1 sda1[0] sdb1[1]" = false)
    by reflexivity.
  assert (Hlen : (3 <= length (Split "md0 : active raid1 sda1[0] sdb1[1]" " "))%nat)
    by (vm_compute; lia).
  assert (Hbody : loopBody exampleLines 1 "md0 : active raid1 sda1[0] sdb1[1]"
                  = Append exampleRecord) by (vm_compute; reflexivity).
  destruct (proj2 (C4_device_line_tokens exampleLines [] 1 []
                     "md0 : active raid1 sda1[0] sdb1[1]" Hsk)
              Hlen exampleRecord Hbody) as (Hname & Hact & _).
  split; [exact Hsk|]. split; [exact Hlen|]. split; [exact Hbody|].
  split; [exact Hname|]. split; [exact Hact|]. split; [reflexivity|].
  apply (proj1 (C4_device_line_tokens ["md0"] [] 0 [] "md0" eq_refl)).
  vm_compute; lia.
Defined.


(** C5.  A device line with fewer than three lines after it makes the
    parse return the error that names the device and the status file,
    whatever the lines after it are. *)
Theorem C5_truncated_section
    (before : list string) (l : string) (rest : list string)
    (mdStates : list mdStatus) :
  skipped l = false ->
  (3 <= length (Split l " "))%nat ->
  (length rest < 3)%nat ->
  rangeLines (before ++ l :: rest) (l :: rest) (length before) mdStates
    = Return mdStates
        (Some (Errorf ("error parsing /proc/mdstat: entry for "
                         ++ nth 0 (Split l " ") ""
                         ++ " has fewer lines than expected"))).
Proof.
  intros Hsk Hlen Hrest. simpl.
  rewrite (loopBody_truncated _ _ _ Hsk Hlen); [reflexivity|].
  rewrite length_app; simpl; lia.
Qed.

Lemma C5_truncated_section_witness :
  rangeLines
    (["Personalities : [raid1]"]
       ++ "md0 : active raid1 sda1[0] sdb1[1]"
       :: ["      1953511936 blocks [2/2] [UU]"; ""])
    ("md0 : active raid1 sda1[0] sdb1[1]"
       :: ["      1953511936 blocks [2/2] [UU]"; ""])
    (length ["Personalities : [raid1]"]) []
  = Return []
      (Some (Errorf ("error parsing /proc/mdstat: entry for "
                       ++ nth 0 (Split "md0 : active raid1 sda1[0] sdb1[1]" " ") ""
                       ++ " has fewer lines than expected"))).
Proof.
  apply (C5_truncated_section ["Personalities : [raid1]"]
           "md0 : active raid1 sda1[0] sdb1[1]"
           ["      1953511936 blocks [2/2] [UU]"; ""] []).
  - reflexivity.
  - vm_compute; lia.
  - simpl; lia.
Defined.

(** C6.  For a record built by a pass: the sync line is the second
    line after the device line, or the third when the second contains
    "bitmap".  If it contains neither "recovery" nor "resync" the record
    has [blocksSynced = blocksTotal]; otherwise [blocksSynced] is the
    number [n] of the leftmost "(n/total)" of that line. *)
Theorem C6_blocks_synced
    (lines : list string) (i : nat) (l : string) (md : mdStatus)
    (bitmapline syncline : string) :
  loopBody lines i l = Append md ->
  nth_error lines (i + 2) = Some bitmapline ->
  nth_error lines (if Contains bitmapline "bitmap" then i + 3 else i + 2)
    = Some syncline ->
  (Contains syncline "recovery" = false /\ Contains syncline "resync" = false ->
   blocksSynced md = blocksTotal md) /\
  (Contains syncline "recovery" = true \/ Contains syncline "resync" = true ->
   exists m0 n total,
     FindStringSubmatch buildlineRE syncline = [m0; n] /\
     m0 = ("(" ++ n ++ "/" ++ total ++ ")")%string /\
     number n /\ number total /\
     ParseInt n = (blocksSynced md, None) /\
     blocksSynced md = digitsValue n).
Proof.
  intros Hbody Hb Hj.
  destruct (loopBody_Append_inv _ _ _ _ Hbody)
    as (_ & _ & _ & _ & _ & _ & (bl & sl & Hb' & Hj' & Hsync)).
  rewrite Hb in Hb'; inversion Hb'; subst bl; clear Hb'.
  rewrite Hj in Hj'; inversion Hj'; subst sl; clear Hj'.
  split.
  - intros [H1 H2]. now rewrite H1, H2 in Hsync.
  - intros H.
    assert (Hc : Contains syncline "recovery" || Contains syncline "resync"
                 = true) by (apply orb_true_iff; exact H).
    rewrite Hc in Hsync.
    destruct (evalBuildline_cases syncline)
      as [[_ E]|(m0 & n & total & Hm & Nn & Nt & Hshape & [[_ E]|[_ E]])];
      rewrite E in Hsync; inversion Hsync as [Hv].
    exists m0, n, total.
    split; [exact Hm|]. split; [exact Hshape|].
    split; [exact Nn|]. split; [exact Nt|].
    split; [|reflexivity].
    destruct (ParseInt_number_cases n Nn) as [[B ->]|[B Q]]; [reflexivity|].
    exfalso. unfold evalBuildline in E. rewrite Hm in E. simpl in E.
    rewrite Q in E. discriminate E.
Qed.

Lemma C6_blocks_synced_witness :
  exists m0 n total,
    FindStringSubmatch buildlineRE
      "      [==>..]  recovery = 45.0% (878780416/1953511936) finish=1min"
      = [m0; n] /\
    m0 = ("(" ++ n ++ "/" ++ total ++ ")")%string /\
    number n /\ number total /\
    ParseInt n = (blocksSynced recoveryRecord, None) /\
    blocksSynced recoveryRecord = digitsValue n.
Proof.
  refine (proj2 (C6_blocks_synced recoveryLines 0
                   "md0 : active raid1 sda1[0] sdb1[1]" recoveryRecord
                   "      [==>..]  recovery = 45.0% (878780416/1953511936) finish=1min"
                   "      [==>..]  recovery = 45.0% (878780416/1953511936) finish=1min"
                   _ _ _) _).
  - vm_compute; reflexivity.
  - reflexivity.
  - reflexivity.
  - left; vm_compute; reflexivity.
Defined.

(** The names of the records of a scan that succeeds are the first
    tokens of the lines that are not skipped, in the order of the
    lines. *)
Lemma rangeLines_names (lines : list string) : forall rest i mdStates mds,
  rangeLines lines rest i mdStates = Return mds None ->
  map mdName mds
    = map mdName mdStates
        ++ map (fun l => nth 0 (Split l " ") "")
             (filter (fun l => negb (skipped l)) rest).
Proof.
  induction rest as [|l rest IH]; intros i mdStates mds H; simpl in H.
  - inversion H; subst. simpl. now rewrite app_nil_r.
  - destruct (loopBody lines i l) as [|md|err|] eqn:Hbody; try discriminate.
    + apply loopBody_Continue_iff in Hbody. simpl. rewrite Hbody. simpl.
      now apply IH with (i := S i).
    + destruct (loopBody_Append_inv _ _ _ _ Hbody) as (Hsk & _ & _ & H0 & _).
      simpl. rewrite Hsk. simpl.
      rewrite (IH _ _ _ H), map_app, <- app_assoc. simpl.
      now rewrite (nth_error_nth _ _ _ H0).
Qed.

Lemma headersFrom_In (rest : list string) : forall i k l,
  In (k, l) (headersFrom i rest) <->
  (i <= k)%nat /\ nth_error rest (k - i) = Some l /\ skipped l = false.
Proof.
  induction rest as [|l0 rest IH]; intros i k l; simpl.
  - split; [contradiction|]. intros (_ & H & _).
    destruct (k - i)%nat; discriminate.
  - assert (Hstep : In (k, l) (headersFrom (S i) rest) <->
                    (i < k)%nat /\ nth_error (l0 :: rest) (k - i) = Some l
                    /\ skipped l = false).
    { rewrite IH. split.
      - intros (Hk & Hn & Hs). split; [lia|]. split; [|assumption].
        replace (k - i)%nat with (S (k - S i)) by lia. exact Hn.
      - intros (Hk & Hn & Hs). split; [lia|]. split; [|assumption].
        replace (k - i)%nat with (S (k - S i)) in Hn by lia. exact Hn. }
    destruct (skipped l0) eqn:Hsk.
    + rewrite Hstep. split.
      * intros (Hk & Hn & Hs). split; [lia | auto].
      * intros (Hk & Hn & Hs). split; [|auto].
        destruct (Nat.eq_dec i k) as [->|]; [|lia].
        rewrite Nat.sub_diag in Hn. simpl in Hn. congruence.
    + simpl. rewrite Hstep. split.
      * intros [E|(Hk & Hn & Hs)].
        -- inversion E; subst. rewrite Nat.sub_diag. simpl. auto.
        -- split; [lia | auto].
      * intros (Hk & Hn & Hs).
        destruct (Nat.eq_dec i k) as [->|]; [left | right; split; [lia | auto]].
        rewrite Nat.sub_diag in Hn. simpl in Hn. congruence.
Qed.

Lemma headersFrom_sorted (rest : list string) : forall i,
  StronglySorted lt (map fst (headersFrom i rest)).
Proof.
  induction rest as [|l rest IH]; intros i; simpl; [constructor|].
  destruct (skipped l); [apply IH|]. simpl. constructor; [apply IH|].
  apply Forall_forall. intros k Hk.
  apply in_map_iff in Hk; destruct Hk as [[k' l'] [E Hin]].
  simpl in E; subst k'. apply headersFrom_In in Hin. lia.
Qed.

(** The records of a scan that succeeds are those appended by the
    passes at the lines that are not skipped, in the order of the
    lines. *)
Lemma rangeLines_records (lines : list string) : forall rest i mdStates mds,
  rangeLines lines rest i mdStates = Return mds None ->
  exists new,
    mds = mdStates ++ new /\
    Forall2 (fun il md => loopBody lines (fst il) (snd il) = Append md)
      (headersFrom i rest) new.
Proof.
  induction rest as [|l rest IH]; intros i mdStates mds H; simpl in H.
  - inversion H; subst. exists []. rewrite app_nil_r. split; constructor.
  - destruct (loopBody lines i l) as [|md|err|] eqn:Hbody; try discriminate.
    + apply loopBody_Continue_iff in Hbody. simpl. rewrite Hbody.
      now apply IH.
    + destruct (loopBody_Append_inv _ _ _ _ Hbody) as (Hsk & _).
      destruct (IH _ _ _ H) as (new & -> & Hall).
      exists (md :: new). rewrite <- app_assoc. split; [reflexivity|].
      simpl. rewrite Hsk. constructor; assumption.
Qed.

(** C7.  A parse that succeeds returns one record for each line of the
    text that is not skipped, in the order of these lines: the k-th
    record is the one built by the pass at the k-th such line and is
    named by the first token of that line; the indices of these lines
    increase along the output. *)
Theorem C7_records_in_text_order
    (fs : FileSystem) (path : string) (mds : list mdStatus) :
  parseMdstat fs path = Return mds None ->
  exists content,
    ReadFile fs path = inl content /\
    Forall2
      (fun il md =>
         loopBody (Split content "010") (fst il) (snd il) = Append md /\
         mdName md = nth 0 (Split (snd il) " ") "")
      (headersFrom 0 (Split content "010")) mds /\
    StronglySorted lt (map fst (headersFrom 0 (Split content "010"))) /\
    (forall k l,
       In (k, l) (headersFrom 0 (Split content "010")) <->
       nth_error (Split content "010") k = Some l /\ skipped l = false) /\
    map mdName mds
      = map (fun l => nth 0 (Split l " ") "")
          (filter (fun l => negb (skipped l)) (Split content "010")).
Proof.
  unfold parseMdstat. destruct (ReadFile fs path) as [content|err];
    [|discriminate].
  intros H. exists content. split; [reflexivity|].
  split; [|split; [apply headersFrom_sorted|split]].
  - destruct (rangeLines_records _ _ _ _ _ H) as (new & -> & Hall).
    simpl. revert Hall. apply Forall2_impl. intros [k l] md Hbody.
    split; [exact Hbody|].
    destruct (loopBody_Append_inv _ _ _ _ Hbody) as (_ & _ & _ & H0 & _).
    simpl. now rewrite (nth_error_nth _ _ _ H0).
  - intros k l. rewrite headersFrom_In, Nat.sub_0_r.
    split; [intros (_ & Hn & Hs) | intros (Hn & Hs)]; auto.
    split; [lia | auto].
  - exact (rangeLines_names _ _ _ _ _ H).
Qed.

Lemma C7_records_in_text_order_witness :
  exists content,
    ReadFile (fsOf (unlines unindentedLines)) statusfile = inl content /\
    Forall2
      (fun il md =>
         loopBody (Split content "010") (fst il) (snd il) = Append md /\
         mdName md = nth 0 (Split (snd il) " ") "")
      (headersFrom 0 (Split content "010"))
      [ {| mdName := "md0"; isActive := true; disksActive := 2;
           disksTotal := 2; blocksTotal := 100; blocksSynced := 100 |};
        {| mdName := "100"; isActive := false; disksActive := 3;
           disksTotal := 3; blocksTotal := 200; blocksSynced := 200 |} ] /\
    StronglySorted lt (map fst (headersFrom 0 (Split content "010"))) /\
    (forall k l,
       In (k, l) (headersFrom 0 (Split content "010")) <->
       nth_error (Split content "010") k = Some l /\ skipped l = false) /\
    map mdName
      [ {| mdName := "md0"; isActive := true; disksActive := 2;
           disksTotal := 2; blocksTotal := 100; blocksSynced := 100 |};
        {| mdName := "100"; isActive := false; disksActive := 3;
           disksTotal := 3; blocksTotal := 200; blocksSynced := 200 |} ]
      = map (fun l => nth 0 (Split l " ") "")
          (filter (fun l => negb (skipped l)) (Split content "010")).
Proof.
  apply (C7_records_in_text_order (fsOf (unlines unindentedLines)) statusfile
           [ {| mdName := "md0"; isActive := true; disksActive := 2;
                disksTotal := 2; blocksTotal := 100; blocksSynced := 100 |};
             {| mdName := "100"; isActive := false; disksActive := 3;
                disksTotal := 3; blocksTotal := 200; blocksSynced := 200 |} ]).
  vm_compute; reflexivity.
Defined.

(** ** The collection pass *)

Section UpdateFacts.

Variable Namespace : string.

(** What one pass of the loop of [Update] sends. *)
Lemma updateBody_sends (sent : list Metric) (mds : mdStatus) :
  exists batch,
    updateBody Namespace (Some sent) mds = Some (sent ++ batch) /\
    map (fun m => (valType m, labelValues m)) batch
      = repeat (GaugeValue, [mdName mds]) 5.
Proof.
  unfold updateBody, send. cbn.
  eexists [_; _; _; _; _]. split.
  - repeat rewrite <- app_assoc. reflexivity.
  - reflexivity.
Qed.

Lemma fold_updateBody_sends (mdstate : list mdStatus) :
  forall sent, exists batch,
    fold_left (updateBody Namespace) mdstate (Some sent)
      = Some (sent ++ batch) /\
    map (fun m => (valType m, labelValues m)) batch
      = flat_map (fun md => repeat (GaugeValue, [mdName md]) 5) mdstate.
Proof.
  induction mdstate as [|mds mdstate IH]; intros sent.
  - exists []. now rewrite app_nil_r.
  - destruct (updateBody_sends sent mds) as (b1 & E1 & M1).
    destruct (IH (sent ++ b1)) as (b2 & E2 & M2).
    exists (b1 ++ b2). split.
    + cbn [fold_left]. now rewrite E1, E2, app_assoc.
    + cbn [flat_map]. now rewrite map_app, M1, M2.
Qed.

End UpdateFacts.

(** C8.  A pass sends nothing and returns nil when the status file does
    not exist; sends nothing and returns the error, with the name of the
    file put in front, when the parse fails; and after a parse that
    succeeds sends five gauges for each record, in the order of the
    records, each with the name of the device as its only label value.
    Whenever an error is returned nothing was sent. *)
Theorem C8_Update_all_or_nothing (Namespace : string) (fs : FileSystem) :
  (IsNotExist (Stat fs statusfile) = true ->
   Update Namespace fs = Return [] None) /\
  (forall mds err,
     Stat fs statusfile = None ->
     parseMdstat fs statusfile = Return mds (Some err) ->
     Update Namespace fs
       = Return [] (Some (Errorf ("error parsing /proc/mdstat: "
                                    ++ Error err)))) /\
  (forall mds,
     Stat fs statusfile = None ->
     parseMdstat fs statusfile = Return mds None ->
     exists sent,
       Update Namespace fs = Return sent None /\
       length sent = 5 * length mds /\
       map (fun m => (valType m, labelValues m)) sent
         = flat_map (fun md => repeat (GaugeValue, [mdName md]) 5) mds) /\
  (forall sent err,
     Update Namespace fs = Return sent (Some err) -> sent = []).
Proof.
  split; [|split; [|split]].
  - intros H. unfold Update. now rewrite H.
  - intros mds err Hstat Hparse. unfold Update.
    rewrite Hstat, Hparse. reflexivity.
  - intros mds Hstat Hparse. unfold Update. rewrite Hstat, Hparse. cbn.
    destruct (fold_updateBody_sends Namespace mds []) as (batch & E & M).
    rewrite E. exists batch. split; [reflexivity|]. split; [|exact M].
    rewrite <- (length_map (fun m => (valType m, labelValues m))), M.
    clear. induction mds as [|md mds IH]; [reflexivity|].
    cbn [flat_map]. rewrite length_app, repeat_length, IH. simpl. lia.
  - intros sent err. unfold Update.
    destruct (IsNotExist (Stat fs statusfile)); [discriminate|].
    destruct (Stat fs statusfile) as [e|].
    + intros H; now inversion H.
    + destruct (parseMdstat fs statusfile) as [mds [e|]|].
      * intros H; now inversion H.
      * destruct (fold_left _ mds (Some [])); discriminate.
      * discriminate.
Qed.

Lemma C8_Update_all_or_nothing_witness :
  exists sent,
    Update "node" (fsOf (unlines exampleLines)) = Return sent None /\
    length sent = 5 * length [exampleRecord] /\
    map (fun m => (valType m, labelValues m)) sent
      = flat_map (fun md => repeat (GaugeValue, [mdName md]) 5)
          [exampleRecord].
Proof.
  apply (proj1 (proj2 (proj2
           (C8_Update_all_or_nothing "node" (fsOf (unlines exampleLines)))))
           [exampleRecord]).
  - reflexivity.
  - vm_compute; reflexivity.
Defined.

(** ** The scan and the lines it has read ahead *)

(** C9, as stated, fails.  In [unindentedLines] the status line of md0
    does not start with a space: the pass for md0 reads it, and the next
    pass takes the same line for a device line and builds a record named
    "100" from it and from the line after it.  A line that starts with a
    tab is not skipped either. *)
Lemma C9_status_line_taken_as_device :
  loopBody unindentedLines 0 "md0 : active raid1"
    = Append {| mdName := "md0"; isActive := true; disksActive := 2;
                disksTotal := 2; blocksTotal := 100; blocksSynced := 100 |} /\
  nth_error unindentedLines (0 + 1) = Some "100 blocks [2/2] [UU]" /\
  loopBody unindentedLines 1 "100 blocks [2/2] [UU]"
    = Append {| mdName := "100"; isActive := false; disksActive := 3;
                disksTotal := 3; blocksTotal := 200; blocksSynced := 200 |} /\
  parseMdstat (fsOf (unlines unindentedLines)) statusfile
    = Return [ {| mdName := "md0"; isActive := true; disksActive := 2;
                  disksTotal := 2; blocksTotal := 100; blocksSynced := 100 |};
               {| mdName := "100"; isActive := false; disksActive := 3;
                  disksTotal := 3; blocksTotal := 200; blocksSynced := 200 |} ]
        None /\
  loopBody [String "009"%char "100 blocks [2/2] [UU]"] 0
    (String "009"%char "100 blocks [2/2] [UU]") <> Continue.
Proof.
  repeat split; try (vm_compute; reflexivity).
  vm_compute; discriminate.
Qed.

(** C9, amended.  A pass skips a line exactly when the line is empty,
    starts with a space, or starts with "Personalities" or "unused".
    After a record is built the scan goes on with the line right after
    the device line, so the lines read ahead for the record are scanned
    too; a parse that succeeds has one record for every line of the text
    that is not skipped. *)
Theorem C9_every_line_is_scanned :
  (forall lines i l,
     loopBody lines i l = Continue <->
     (l = "" \/ (exists rest, l = String " "%char rest) \/
      HasPrefix l "Personalities" = true \/ HasPrefix l "unused" = true)) /\
  (forall lines rest i mdStates l md,
     loopBody lines i l = Append md ->
     rangeLines lines (l :: rest) i mdStates
       = rangeLines lines rest (S i) (mdStates ++ [md])) /\
  (forall fs path mds,
     parseMdstat fs path = Return mds None ->
     exists content,
       ReadFile fs path = inl content /\
       length mds
         = length (filter (fun l => negb (skipped l))
                     (Split content "010"))).
Proof.
  split; [|split].
  - intros lines i l. rewrite loopBody_Continue_iff. unfold skipped.
    destruct l as [|l0 rest].
    + split; auto.
    + destruct (Ascii.eqb_spec l0 " ") as [->|Hne]; cbn [orb].
      * split; eauto.
      * rewrite orb_true_iff. split.
        -- intros [H|H]; auto.
        -- intros [H|[[r H]|[H|H]]]; auto; [discriminate|].
           inversion H; congruence.
  - intros lines rest i mdStates l md H. simpl. now rewrite H.
  - intros fs path mds H. unfold parseMdstat in H.
    destruct (ReadFile fs path) as [content|err]; [|discriminate].
    exists content. split; [reflexivity|].
    pose proof (rangeLines_names _ _ _ _ _ H) as Hn. simpl in Hn.
    rewrite <- (length_map mdName), Hn. apply length_map.
Qed.

Lemma C9_every_line_is_scanned_witness :
  exists content,
    ReadFile (fsOf (unlines unindentedLines)) statusfile = inl content /\
    length
      [ {| mdName := "md0"; isActive := true; disksActive := 2;
           disksTotal := 2; blocksTotal := 100; blocksSynced := 100 |};
        {| mdName := "100"; isActive := false; disksActive := 3;
           disksTotal := 3; blocksTotal := 200; blocksSynced := 200 |} ]
      = length (filter (fun l => negb (skipped l)) (Split content "010")).
Proof.
  apply (proj2 (proj2 C9_every_line_is_scanned)
           (fsOf (unlines unindentedLines)) statusfile).
  vm_compute; reflexivity.
Defined.

(** ** Numbers that do not fit [int64] *)

Lemma Error_Errorf (msg : string) : Error (Errorf msg) = msg.
Proof. reflexivity. Qed.

(** The text of the range error of a submatch, followed by [rest]. *)
Lemma range_error_text (c rest : string) :
  (Error (NumError "ParseInt" c ErrRange) ++ rest)%string
  = ("strconv.ParseInt: parsing " ++ Quote c ++ ": value out of range"
       ++ rest)%string.
Proof.
  unfold Quote, dquote. simpl. do 2 f_equal.
  repeat rewrite append_assoc_str. reflexivity.
Qed.



(* ================================================================== *)
(** * Part III: further properties of the collector *)
(* ================================================================== *)

(** X1.  A line is rejected with "too few matches" exactly when no part
    of it matches the pattern; in particular a sync line that contains
    a ratio "(n/total)" of two numbers is never rejected this way. *)
Theorem X1_too_few_iff_no_match (line : string) :
  (evalStatusline line
     = Return (0, 0, 0)%Z
         (Some (Errorf ("too few matches found in statusline: " ++ line)))
   <-> ~ exists before m after caps,
           line = (before ++ m ++ after)%string /\
           Matches statuslineRE m caps) /\
  (evalBuildline line
     = Return 0%Z
         (Some (Errorf ("too few matches found in buildline: " ++ line)))
   <-> ~ exists before m after caps,
           line = (before ++ m ++ after)%string /\
           Matches buildlineRE m caps) /\
  (forall before n total after,
     number n -> number total ->
     line = (before ++ ("(" ++ n ++ "/" ++ total ++ ")") ++ after)%string ->
     exists m0 n0, FindStringSubmatch buildlineRE line = [m0; n0]).
Proof.
  split; [|split].
  - split.
    + intros He (before & m & after & caps & -> & M).
      apply (FindStringSubmatch_complete _ _ _ after M before).
      destruct (evalStatusline_cases (before ++ m ++ after))
        as [[E _]|(m0 & c1 & c2 & c3 & _ & _ & _ & _
                   & [[_ E]|(c & _ & _ & E)])];
        [exact E | |]; rewrite E in He; simpl in He; inversion He.
    + intros Hno.
      destruct (evalStatusline_cases line)
        as [[_ E]|(m0 & c1 & c2 & c3 & Hm & _)]; [exact E|].
      exfalso. apply Hno.
      destruct (FindStringSubmatch_sound _ _ _ _ Hm) as [M (b & a & Hs)].
      now exists b, m0, a, [c1; c2; c3].
  - split.
    + intros He (before & m & after & caps & -> & M).
      apply (FindStringSubmatch_complete _ _ _ after M before).
      destruct (evalBuildline_cases (before ++ m ++ after))
        as [[E _]|(m0 & n & total & _ & _ & _ & _ & [[_ E]|[_ E]])];
        [exact E | |]; rewrite E in He; simpl in He; inversion He.
    + intros Hno.
      destruct (evalBuildline_cases line)
        as [[_ E]|(m0 & n & total & Hm & _)]; [exact E|].
      exfalso. apply Hno.
      destruct (FindStringSubmatch_sound _ _ _ _ Hm) as [M (b & a & Hs)].
      now exists b, m0, a, [n].
  - intros before n total after [Hn1 Hn2] [Ht1 Ht2] ->.
    assert (M : Matches buildlineRE ("(" ++ n ++ "/" ++ total ++ ")") [n]).
    { unfold buildlineRE.
      apply (MCat (Lit "(") _ "(" _ [] [n]); [constructor|].
      apply (MCat (Group (Plus digit)) _ n _ [n] []);
        [now repeat constructor|].
      apply (MCat (Lit "/") _ "/" _ [] []); [constructor|].
      apply (MCat (Plus digit) (Lit ")") total ")" [] []);
        now constructor. }
    pose proof (FindStringSubmatch_complete _ _ _ after M before) as Hne.
    destruct (FindStringSubmatch buildlineRE _) as [|m0 caps] eqn:E;
      [congruence|].
    destruct (FindStringSubmatch_sound _ _ _ _ E) as [M' _].
    destruct (buildline_captures _ _ M') as (n0 & t0 & -> & _).
    now exists m0, n0.
Qed.

Lemma X1_too_few_iff_no_match_witness :
  exists m0 n0,
    FindStringSubmatch buildlineRE
      "      [==>..]  recovery = 45.0% (878780416/1953511936) finish=1min"
    = [m0; n0].
Proof.
  apply (proj2 (proj2 (X1_too_few_iff_no_match
           "      [==>..]  recovery = 45.0% (878780416/1953511936) finish=1min"))
           "      [==>..]  recovery = 45.0% " "878780416" "1953511936"
           " finish=1min").
  - split; [discriminate | reflexivity].
  - split; [discriminate | reflexivity].
  - reflexivity.
Defined.

(** X2.  The number of synced blocks that [evalBuildline] returns is
    the first number of the leftmost ratio "(n/total)" of the line: no
    ratio of two numbers starts before the one that is used. *)
Theorem X2_buildline_uses_leftmost_ratio (line : string) (v : Z) :
  evalBuildline line = Return v None ->
  exists before n total after,
    line = (before ++ ("(" ++ n ++ "/" ++ total ++ ")") ++ after)%string /\
    number n /\ number total /\ v = digitsValue n /\
    forall before' n' total' after',
      number n' -> number total' ->
      line = (before' ++ ("(" ++ n' ++ "/" ++ total' ++ ")") ++ after')%string ->
      (String.length before <= String.length before')%nat.
Proof.
  intros He.
  destruct (evalBuildline_ok_inv _ _ He) as (m0 & n & Hm & Hp).
  destruct (FindStringSubmatch_leftmost _ _ _ _ Hm)
    as (before & after & Hs & Hleft).
  destruct (FindStringSubmatch_sound _ _ _ _ Hm) as [M _].
  destruct (buildline_captures _ _ M) as (n1 & total & E & Nn & Nt & Hshape).
  inversion E; subst n1; clear E.
  exists before, n, total, after.
  split; [now rewrite <- Hshape|]. split; [exact Nn|]. split; [exact Nt|].
  split.
  - destruct (ParseInt_number_cases n Nn) as [[_ Q]|[_ Q]];
      rewrite Q in Hp; now inversion Hp.
  - intros before' n' total' after' [Hn1 Hn2] [Ht1 Ht2] Hs'.
    apply (Hleft before' ("(" ++ n' ++ "/" ++ total' ++ ")")%string after' [n']);
      [exact Hs'|].
    unfold buildlineRE.
    apply (MCat (Lit "(") _ "(" _ [] [n']); [constructor|].
    apply (MCat (Group (Plus digit)) _ n' _ [n'] []);
      [now repeat constructor|].
    apply (MCat (Lit "/") _ "/" _ [] []); [constructor|].
    apply (MCat (Plus digit) (Lit ")") total' ")" [] []); now constructor.
Qed.

Lemma X2_buildline_uses_leftmost_ratio_witness :
  exists before n total after,
    "resync = 1% (1/2) (3/4)"%string
      = (before ++ ("(" ++ n ++ "/" ++ total ++ ")") ++ after)%string /\
    number n /\ number total /\ 1%Z = digitsValue n /\
    forall before' n' total' after',
      number n' -> number total' ->
      "resync = 1% (1/2) (3/4)"%string
        = (before' ++ ("(" ++ n' ++ "/" ++ total' ++ ")") ++ after')%string ->
      (String.length before <= String.length before')%nat.
Proof.
  apply (X2_buildline_uses_leftmost_ratio "resync = 1% (1/2) (3/4)" 1%Z).
  vm_compute; reflexivity.
Defined.

(** ** The numbers of a record fit [int64] and are not negative *)

Lemma digitsValue_nonneg (c : string) : number c -> (0 <= digitsValue c)%Z.
Proof. intros [_ H]. now apply (digitsValueFrom_ge c 0%Z H). Qed.

Lemma evalStatusline_range (line : string) (active total size : Z) :
  evalStatusline line = Return (active, total, size) None ->
  (0 <= active <= maxInt64)%Z /\ (0 <= total <= maxInt64)%Z /\
  (0 <= size <= maxInt64)%Z.
Proof.
  intros He.
  destruct (evalStatusline_cases line)
    as [[_ E]|(m0 & c1 & c2 & c3 & _ & N1 & N2 & N3
               & [[Hall E]|(c & _ & _ & E)])];
    rewrite E in He; inversion He; subst.
  inversion Hall as [|? ? B1 Hall1]; subst.
  inversion Hall1 as [|? ? B2 Hall2]; subst.
  inversion Hall2 as [|? ? B3 _]; subst.
  pose proof (digitsValue_nonneg _ N1). pose proof (digitsValue_nonneg _ N2).
  pose proof (digitsValue_nonneg _ N3). lia.
Qed.

Lemma evalBuildline_range (line : string) (synced : Z) :
  evalBuildline line = Return synced None -> (0 <= synced <= maxInt64)%Z.
Proof.
  intros He.
  destruct (evalBuildline_cases line)
    as [[_ E]|(m0 & n & total & _ & Nn & _ & _ & [[B E]|[_ E]])];
    rewrite E in He; inversion He; subst.
  pose proof (digitsValue_nonneg _ Nn). lia.
Qed.

Lemma loopBody_Append_range (lines : list string) (i : nat) (l : string)
    (md : mdStatus) :
  loopBody lines i l = Append md ->
  (0 <= disksActive md <= maxInt64)%Z /\ (0 <= disksTotal md <= maxInt64)%Z /\
  (0 <= blocksTotal md <= maxInt64)%Z /\ (0 <= blocksSynced md <= maxInt64)%Z.
Proof.
  intros Hbody.
  destruct (loopBody_Append_inv _ _ _ _ Hbody)
    as (_ & _ & _ & _ & _ & (sl & _ & He) & (bl & sy & _ & _ & Hsync)).
  destruct (evalStatusline_range _ _ _ _ He) as (Ha & Ht & Hs).
  repeat (split; [assumption|]).
  destruct (Contains sy "recovery" || Contains sy "resync").
  - now apply (evalBuildline_range sy).
  - now rewrite Hsync.
Qed.

(** What holds of the records in hand and of every record a pass
    appends holds of the records a scan returns, with or without an
    error. *)
Lemma rangeLines_Forall (P : mdStatus -> Prop) (lines : list string) :
  (forall i l md, loopBody lines i l = Append md -> P md) ->
  forall rest i mdStates mds err,
    Forall P mdStates ->
    rangeLines lines rest i mdStates = Return mds err ->
    Forall P mds.
Proof.
  intros Hstep. induction rest as [|l rest IH];
    intros i mdStates mds err Hacc H; simpl in H.
  - now inversion H; subst.
  - destruct (loopBody lines i l) as [|md|e|] eqn:Hbody.
    + now apply (IH _ _ _ _ Hacc H).
    + apply (IH (S i) (mdStates ++ [md]) mds err); [|exact H].
      apply Forall_app. split; [exact Hacc|].
      constructor; [now apply (Hstep i l) | constructor].
    + now inversion H; subst.
    + discriminate.
Qed.

(** X3.  Whatever the text, every record the parser returns, also
    beside an error, has its four numbers between 0 and 2^63 - 1. *)
Theorem X3_record_numbers_in_int64
    (fs : FileSystem) (path : string) (mds : list mdStatus)
    (err : option error) :
  parseMdstat fs path = Return mds err ->
  Forall
    (fun md =>
       (0 <= disksActive md <= 2 ^ 63 - 1)%Z /\
       (0 <= disksTotal md <= 2 ^ 63 - 1)%Z /\
       (0 <= blocksTotal md <= 2 ^ 63 - 1)%Z /\
       (0 <= blocksSynced md <= 2 ^ 63 - 1)%Z)
    mds.
Proof.
  unfold parseMdstat. destruct (ReadFile fs path) as [content|e].
  - apply rangeLines_Forall; [|constructor].
    intros i l md. apply loopBody_Append_range.
  - intros H; inversion H; constructor.
Qed.

Lemma X3_record_numbers_in_int64_witness :
  Forall
    (fun md =>
       (0 <= disksActive md <= 2 ^ 63 - 1)%Z /\
       (0 <= disksTotal md <= 2 ^ 63 - 1)%Z /\
       (0 <= blocksTotal md <= 2 ^ 63 - 1)%Z /\
       (0 <= blocksSynced md <= 2 ^ 63 - 1)%Z)
    [recoveryRecord].
Proof.
  apply (X3_record_numbers_in_int64 (fsOf (unlines recoveryLines)) statusfile
           [recoveryRecord] None).
  vm_compute; reflexivity.
Defined.

(** ** The errors of the parser *)

(** What a pass that returns an error has found. *)
Lemma loopBody_Exit_inv (lines : list string) (i : nat) (l : string)
    (err : error) :
  loopBody lines i l = Exit err ->
  skipped l = false /\
  (err = Errorf ("error parsing mdline: " ++ l) \/
   err = Errorf ("error parsing /proc/mdstat: entry for "
                   ++ nth 0 (Split l " ") ""
                   ++ " has fewer lines than expected") \/
   (exists statusline v e,
       nth_error lines (i + 1) = Some statusline /\
       evalStatusline statusline = Return v (Some e) /\
       err = Errorf ("error parsing /proc/mdstat: " ++ Error e)) \/
   (exists k syncline v e,
       (k = i + 2 \/ k = i + 3)%nat /\
       nth_error lines k = Some syncline /\
       evalBuildline syncline = Return v (Some e) /\
       err = Errorf ("error parsing /proc/mdstat: " ++ Error e))).
Proof.
  unfold loopBody, skipped. destruct l as [|lhead ltail]; [discriminate|].
  change (String.eqb (String lhead ltail) "") with false. cbv iota.
  destruct (Ascii.eqb lhead " "); [discriminate|]. cbn [orb].
  destruct (HasPrefix (String lhead ltail) "Personalities"
            || HasPrefix (String lhead ltail) "unused"); [discriminate|].
  cbv zeta.
  destruct (length (Split (String lhead ltail) " ") <? 3)%nat.
  { intros H; inversion H. auto. }
  destruct (nth_error (Split (String lhead ltail) " ") 0) as [currentMD|]
    eqn:H0; [|discriminate].
  destruct (nth_error (Split (String lhead ltail) " ") 2) as [state|];
    [|discriminate].
  rewrite (nth_error_nth _ _ _ H0).
  destruct (length lines <=? i + 3)%nat.
  { intros H; inversion H. auto. }
  destruct (nth_error lines (i + 1)) as [statusline|]; [|discriminate].
  destruct (evalStatusline statusline) as [[[active total] size] [e|]|]
    eqn:Hes; try discriminate.
  { intros H; inversion H. split; [reflexivity|]. right; right; left.
    now exists statusline, (active, total, size), e. }
  destruct (nth_error lines (i + 2)) as [bitmapline|] eqn:Hb; [|discriminate].
  destruct (nth_error lines
              (if Contains bitmapline "bitmap" then i + 3 else i + 2))
    as [syncline|] eqn:Hj; [|discriminate].
  destruct (Contains syncline "recovery" || Contains syncline "resync");
    [|discriminate].
  destruct (evalBuildline syncline) as [synced [e|]|] eqn:Heb;
    try discriminate.
  intros H; inversion H. split; [reflexivity|]. right; right; right.
  exists (if Contains bitmapline "bitmap" then i + 3 else i + 2)%nat,
         syncline, synced, e.
  split; [destruct (Contains bitmapline "bitmap"); auto | auto].
Qed.

(** A scan that returns an error stopped at a line whose pass returned
    it; the scan of the lines before that one went through. *)
Lemma rangeLines_error_inv (lines : list string) :
  forall rest i mdStates mds err,
    rangeLines lines rest i mdStates = Return mds (Some err) ->
    exists before l after,
      rest = before ++ l :: after /\
      loopBody lines (i + length before) l = Exit err /\
      rangeLines lines before i mdStates = Return mds None.
Proof.
  induction rest as [|l rest IH]; intros i mdStates mds err H; simpl in H;
    [discriminate|].
  destruct (loopBody lines i l) as [|md|e|] eqn:Hbody.
  - destruct (IH _ _ _ _ H) as (before & l' & after & -> & Hexit & Hpre).
    exists (l :: before), l', after. split; [reflexivity|].
    simpl. rewrite Hbody.
    replace (i + S (length before))%nat with (S i + length before)%nat by lia.
    auto.
  - destruct (IH _ _ _ _ H) as (before & l' & after & -> & Hexit & Hpre).
    exists (l :: before), l', after. split; [reflexivity|].
    simpl. rewrite Hbody.
    replace (i + S (length before))%nat with (S i + length before)%nat by lia.
    auto.
  - inversion H; subst. exists [], l, rest. split; [reflexivity|].
    simpl. now rewrite Nat.add_0_r.
  - discriminate.
Qed.

(** X4.  When the parser returns an error for a text it could read, the
    error comes from the first line, not skipped, whose pass fails, and
    the list returned with the error holds the records of the lines
    before it that are not skipped, in their order. *)
Theorem X4_error_keeps_earlier_records
    (fs : FileSystem) (path content : string) (mds : list mdStatus)
    (err : error) :
  ReadFile fs path = inl content ->
  parseMdstat fs path = Return mds (Some err) ->
  exists before l after,
    Split content "010" = before ++ l :: after /\
    skipped l = false /\
    loopBody (Split content "010") (length before) l = Exit err /\
    Forall2
      (fun il md =>
         loopBody (Split content "010") (fst il) (snd il) = Append md)
      (headersFrom 0 before) mds.
Proof.
  unfold parseMdstat. intros ->. intros H.
  destruct (rangeLines_error_inv _ _ _ _ _ _ H)
    as (before & l & after & Hsplit & Hexit & Hpre).
  exists before, l, after. split; [exact Hsplit|].
  simpl in Hexit.
  split; [now destruct (loopBody_Exit_inv _ _ _ _ Hexit)|].
  split; [exact Hexit|].
  destruct (rangeLines_records _ _ _ _ _ Hpre) as (new & -> & Hall).
  exact Hall.
Qed.

Lemma X4_error_keeps_earlier_records_witness :
  exists before l after,
    Split (unlines (unindentedLines ++ ["md9"])) "010" = before ++ l :: after /\
    skipped l = false /\
    loopBody (Split (unlines (unindentedLines ++ ["md9"])) "010")
      (length before) l
      = Exit (Errorf "error parsing mdline: md9") /\
    Forall2
      (fun il md =>
         loopBody (Split (unlines (unindentedLines ++ ["md9"])) "010")
           (fst il) (snd il) = Append md)
      (headersFrom 0 before)
      [ {| mdName := "md0"; isActive := true; disksActive := 2;
           disksTotal := 2; blocksTotal := 100; blocksSynced := 100 |};
        {| mdName := "100"; isActive := false; disksActive := 3;
           disksTotal := 3; blocksTotal := 200; blocksSynced := 200 |} ].
Proof.
  apply (X4_error_keeps_earlier_records
           (fsOf (unlines (unindentedLines ++ ["md9"]))) statusfile).
  - reflexivity.
  - vm_compute; reflexivity.
Defined.

(** X5.  The parser has seven error messages and no other: the read
    error of the file, and, for a line of the text, "error parsing
    mdline", "has fewer lines than expected", "too few matches" in a
    status line or in a sync line, and the range error of a number in a
    status line or in a sync line.  "Too many matches" and a syntax
    error of a number are never reported. *)
Theorem X5_error_messages
    (fs : FileSystem) (path : string) (mds : list mdStatus) (err : error) :
  parseMdstat fs path = Return mds (Some err) ->
  (exists e,
      ReadFile fs path = inr e /\ mds = [] /\
      Error err = ("error parsing /proc/mdstat: " ++ Error e)%string)
  \/
  (exists content l,
      ReadFile fs path = inl content /\ In l (Split content "010") /\
      (Error err = ("error parsing mdline: " ++ l)%string \/
       Error err = ("error parsing /proc/mdstat: entry for "
                      ++ nth 0 (Split l " ") ""
                      ++ " has fewer lines than expected")%string \/
       Error err = ("error parsing /proc/mdstat: "
                      ++ "too few matches found in statusline: " ++ l)%string \/
       Error err = ("error parsing /proc/mdstat: "
                      ++ "too few matches found in buildline: " ++ l)%string \/
       (exists c,
           number c /\ (2 ^ 63 - 1 < digitsValue c)%Z /\
           Error err = ("error parsing /proc/mdstat: "
                          ++ "strconv.ParseInt: parsing " ++ Quote c
                          ++ ": value out of range in statusline: " ++ l)%string) \/
       (exists c,
           number c /\ (2 ^ 63 - 1 < digitsValue c)%Z /\
           Error err = ("error parsing /proc/mdstat: "
                          ++ "strconv.ParseInt: parsing " ++ Quote c
                          ++ ": value out of range in buildline: " ++ l)%string))).
Proof.
  unfold parseMdstat. destruct (ReadFile fs path) as [content|e].
  2:{ intros H; inversion H; subst. left. now exists e. }
  intros H. right.
  destruct (rangeLines_error_inv _ _ _ _ _ _ H)
    as (before & l & after & Hsplit & Hexit & _).
  simpl in Hexit.
  assert (Hl : In l (Split content "010"))
    by (rewrite Hsplit; apply in_or_app; right; now left).
  destruct (loopBody_Exit_inv _ _ _ _ Hexit)
    as (_ & [->|[->|[(sl & v & e & Hs & He & ->)
                    |(k & sy & v & e & _ & Hs & He & ->)]]]).
  - exists content, l. auto.
  - exists content, l. auto.
  - exists content, sl. split; [reflexivity|].
    split; [now apply nth_error_In in Hs|].
    destruct (evalStatusline_cases sl)
      as [[_ E]|(m0 & c1 & c2 & c3 & Hm & N1 & N2 & N3
                 & [[_ E]|(c & Hin & Hc & E)])];
      rewrite E in He; inversion He; subst.
    + right; right; left. reflexivity.
    + right; right; right; right; left. exists c.
      split; [|split; [exact Hc|]].
      * destruct Hin as [<-|[<-|[<-|[]]]]; assumption.
      * rewrite Error_Errorf. f_equal.
        rewrite Error_Errorf. apply range_error_text.
  - exists content, sy. split; [reflexivity|].
    split; [now apply nth_error_In in Hs|].
    destruct (evalBuildline_cases sy)
      as [[_ E]|(m0 & n & total & Hm & Nn & _ & _ & [[_ E]|[Hc E]])];
      rewrite E in He; inversion He; subst.
    + right; right; right; left. reflexivity.
    + right; right; right; right; right. exists n.
      split; [exact Nn|]. split; [exact Hc|].
      rewrite Error_Errorf. f_equal.
      rewrite Error_Errorf. apply range_error_text.
Qed.

Lemma X5_error_messages_witness :
  (exists e,
      ReadFile (fsOf (unlines ["md0 : active raid1"; "oops"; ""; ""]))
        statusfile = inr e /\ @nil mdStatus = [] /\
      Error (Errorf ("error parsing /proc/mdstat: "
                       ++ "too few matches found in statusline: oops"))
        = ("error parsing /proc/mdstat: " ++ Error e)%string)
  \/
  (exists content l,
      ReadFile (fsOf (unlines ["md0 : active raid1"; "oops"; ""; ""]))
        statusfile = inl content /\ In l (Split content "010") /\
      let err := Errorf ("error parsing /proc/mdstat: "
                           ++ "too few matches found in statusline: oops") in
      (Error err = ("error parsing mdline: " ++ l)%string \/
       Error err = ("error parsing /proc/mdstat: entry for "
                      ++ nth 0 (Split l " ") ""
                      ++ " has fewer lines than expected")%string \/
       Error err = ("error parsing /proc/mdstat: "
                      ++ "too few matches found in statusline: " ++ l)%string \/
       Error err = ("error parsing /proc/mdstat: "
                      ++ "too few matches found in buildline: " ++ l)%string \/
       (exists c,
           number c /\ (2 ^ 63 - 1 < digitsValue c)%Z /\
           Error err = ("error parsing /proc/mdstat: "
                          ++ "strconv.ParseInt: parsing " ++ Quote c
                          ++ ": value out of range in statusline: " ++ l)%string) \/
       (exists c,
           number c /\ (2 ^ 63 - 1 < digitsValue c)%Z /\
           Error err = ("error parsing /proc/mdstat: "
                          ++ "strconv.ParseInt: parsing " ++ Quote c
                          ++ ": value out of range in buildline: " ++ l)%string))).
Proof.
  apply (X5_error_messages
           (fsOf (unlines ["md0 : active raid1"; "oops"; ""; ""])) statusfile []).
  vm_compute; reflexivity.
Defined.

(** ** Lines that carry no device *)

Lemma Split_app (a b : string) (sep : ascii) :
  Split (a ++ String sep b) sep = Split a sep ++ Split b sep.
Proof.
  induction a as [|c a IH]; simpl.
  - now rewrite Ascii.eqb_refl.
  - destruct (Ascii.eqb c sep); [now rewrite IH|].
    rewrite IH. pose proof (Split_nonempty a sep) as Hne.
    destruct (Split a sep) as [|piece pieces]; [congruence | reflexivity].
Qed.

(** A run of skipped lines only moves the scan forward. *)
Lemma rangeLines_skipped (lines : list string) :
  forall pre rest i mdStates,
    Forall (fun l => skipped l = true) pre ->
    rangeLines lines (pre ++ rest) i mdStates
      = rangeLines lines rest (i + length pre) mdStates.
Proof.
  induction pre as [|l pre IH]; intros rest i mdStates Hall; simpl.
  - now rewrite Nat.add_0_r.
  - inversion Hall as [|? ? Hl Hpre]; subst.
    rewrite (loopBody_skipped lines i l Hl), (IH _ _ _ Hpre).
    f_equal. lia.
Qed.

Lemma nth_error_shift (pre lines : list string) (i k : nat) :
  nth_error (pre ++ lines) (length pre + i + k) = nth_error lines (i + k).
Proof. rewrite nth_error_app2 by lia. f_equal. lia. Qed.

(** A pass looks at the three lines after its own and at whether there
    are that many: lines put in front of the text do not change it. *)
Lemma loopBody_shift (pre lines : list string) (i : nat) (l : string) :
  loopBody (pre ++ lines) (length pre + i) l = loopBody lines i l.
Proof.
  unfold loopBody.
  destruct (String.eqb l ""); [reflexivity|].
  destruct l as [|lhead ltail]; [reflexivity|].
  destruct (Ascii.eqb lhead " "); [reflexivity|].
  destruct (HasPrefix (String lhead ltail) "Personalities"
            || HasPrefix (String lhead ltail) "unused"); [reflexivity|].
  cbv zeta.
  destruct (length (Split (String lhead ltail) " ") <? 3)%nat; [reflexivity|].
  destruct (nth_error (Split (String lhead ltail) " ") 0); [|reflexivity].
  destruct (nth_error (Split (String lhead ltail) " ") 2); [|reflexivity].
  assert (Hlen : (length (pre ++ lines) <=? length pre + i + 3)%nat
                 = (length lines <=? i + 3)%nat).
  { rewrite length_app. apply Bool.eq_true_iff_eq.
    rewrite !Nat.leb_le. lia. }
  rewrite Hlen. destruct (length lines <=? i + 3)%nat; [reflexivity|].
  rewrite nth_error_shift.
  destruct (nth_error lines (i + 1)) as [statusline|]; [|reflexivity].
  destruct (evalStatusline statusline) as [[[active total] size] [e|]|];
    try reflexivity.
  rewrite nth_error_shift.
  destruct (nth_error lines (i + 2)) as [bitmapline|]; [|reflexivity].
  destruct (Contains bitmapline "bitmap"); now rewrite nth_error_shift.
Qed.

Lemma rangeLines_shift (pre lines : list string) :
  forall rest i mdStates,
    rangeLines (pre ++ lines) rest (length pre + i) mdStates
      = rangeLines lines rest i mdStates.
Proof.
  induction rest as [|l rest IH]; intros i mdStates; simpl; [reflexivity|].
  rewrite loopBody_shift.
  replace (S (length pre + i)) with (length pre + S i)%nat by lia.
  destruct (loopBody lines i l); auto.
Qed.

(** X6.  A text in which every line is skipped (empty lines, lines that
    start with a space, "Personalities" and "unused" lines), the empty
    text among them, parses to no record and no error, and a pass over
    it sends nothing and returns nil. *)
Theorem X6_no_device_lines
    (Namespace : string) (fs : FileSystem) (content : string) :
  ReadFile fs statusfile = inl content ->
  Forall (fun l => skipped l = true) (Split content "010") ->
  parseMdstat fs statusfile = Return [] None /\
  (Stat fs statusfile = None -> Update Namespace fs = Return [] None).
Proof.
  intros Hread Hall.
  assert (Hparse : parseMdstat fs statusfile = Return [] None).
  { unfold parseMdstat. rewrite Hread. cbv zeta.
    rewrite <- (app_nil_r (Split content "010")) at 2.
    now rewrite (rangeLines_skipped _ _ [] 0 [] Hall). }
  split; [exact Hparse|].
  intros Hstat. unfold Update. now rewrite Hstat, Hparse.
Qed.

Lemma X6_no_device_lines_witness :
  parseMdstat (fsOf "") statusfile = Return [] None /\
  (Stat (fsOf "") statusfile = None ->
   Update "node" (fsOf "") = Return [] None).
Proof.
  apply (X6_no_device_lines "node" (fsOf "") "").
  - reflexivity.
  - repeat constructor.
Defined.

(** X7.  Lines that are all skipped, put in front of a text, do not
    change what the text parses to: neither the records nor the
    error. *)
Theorem X7_leading_skipped_lines
    (fs fs' : FileSystem) (path path' preamble content : string) :
  ReadFile fs path = inl content ->
  ReadFile fs' path' = inl (preamble ++ String "010"%char content)%string ->
  Forall (fun l => skipped l = true) (Split preamble "010") ->
  parseMdstat fs' path' = parseMdstat fs path.
Proof.
  intros Hread Hread' Hall. unfold parseMdstat.
  rewrite Hread, Hread'. cbv zeta. rewrite Split_app.
  rewrite (rangeLines_skipped _ _ _ 0 [] Hall). simpl.
  rewrite <- (Nat.add_0_r (length (Split preamble "010"))).
  apply rangeLines_shift.
Qed.

Lemma X7_leading_skipped_lines_witness :
  parseMdstat
    (fsOf ("Personalities : [raid1]"
             ++ String "010"%char (unlines recoveryLines)))
    statusfile
  = parseMdstat (fsOf (unlines recoveryLines)) statusfile.
Proof.
  apply (X7_leading_skipped_lines
           (fsOf (unlines recoveryLines))
           (fsOf ("Personalities : [raid1]"
                    ++ String "010"%char (unlines recoveryLines)))
           statusfile statusfile "Personalities : [raid1]"
           (unlines recoveryLines)).
  - reflexivity.
  - reflexivity.
  - repeat constructor.
Defined.

(** ** The gauges of a pass *)

Section GaugeFacts.

Variable Namespace : string.

Lemma fold_updateBody_map (A : Type) (f : Metric -> A)
    (g : mdStatus -> list A) :
  (forall sent mds, exists batch,
      updateBody Namespace (Some sent) mds = Some (sent ++ batch) /\
      map f batch = g mds) ->
  forall mdstate sent, exists batch,
    fold_left (updateBody Namespace) mdstate (Some sent)
      = Some (sent ++ batch) /\
    map f batch = flat_map g mdstate.
Proof.
  intros Hbody. induction mdstate as [|mds mdstate IH]; intros sent.
  - exists []. now rewrite app_nil_r.
  - destruct (Hbody sent mds) as (b1 & E1 & M1).
    destruct (IH (sent ++ b1)) as (b2 & E2 & M2).
    exists (b1 ++ b2). split.
    + cbn [fold_left]. now rewrite E1, E2, app_assoc.
    + cbn [flat_map]. now rewrite map_app, M1, M2.
Qed.

Lemma updateBody_gauges (sent : list Metric) (mds : mdStatus) :
  exists batch,
    updateBody Namespace (Some sent) mds = Some (sent ++ batch) /\
    map (fun m => (fqName (desc m), val m)) batch
      = [ (BuildFQName Namespace "md" "is_active",
           if isActive mds then 1%Z else 0%Z);
          (BuildFQName Namespace "md" "disks_active",
           float64 (disksActive mds));
          (BuildFQName Namespace "md" "disks", float64 (disksTotal mds));
          (BuildFQName Namespace "md" "blocks", float64 (blocksTotal mds));
          (BuildFQName Namespace "md" "blocks_synced",
           float64 (blocksSynced mds)) ].
Proof.
  unfold updateBody, send. cbn.
  eexists [_; _; _; _; _]. split.
  - repeat rewrite <- app_assoc. reflexivity.
  - reflexivity.
Qed.

End GaugeFacts.

(** The conversion to [float64] is exact up to 2^53 and, on the numbers
    of a record, moves a number by 512 at most. *)
Lemma float64_of_record_number (x : Z) :
  (0 <= x <= 2 ^ 63 - 1)%Z ->
  ((x <= 2 ^ 53)%Z -> float64 x = x) /\
  (Z.abs (float64 x - x) <= 512)%Z.
Proof.
  intros Hx. unfold float64. rewrite (Z.abs_eq x) by lia.
  change (2 ^ 53)%Z with 9007199254740992%Z.
  change (2 ^ 63 - 1)%Z with 9223372036854775807%Z in Hx.
  destruct (Z.ltb_spec x 9007199254740992) as [Hlt|Hge].
  { split; [reflexivity|]. rewrite Z.sub_diag. simpl. lia. }
  cbv zeta.
  assert (Hlo : (53 <= Z.log2 x)%Z).
  { change 53%Z with (Z.log2 9007199254740992). now apply Z.log2_le_mono. }
  assert (Hhi : (Z.log2 x <= 62)%Z).
  { change 62%Z with (Z.log2 9223372036854775807). apply Z.log2_le_mono. lia. }
  rewrite (Z.sgn_pos x) by lia.
  remember (Z.log2 x - 52)%Z as e eqn:He.
  assert (Hcases : (e = 1 \/ e = 2 \/ e = 3 \/ e = 4 \/ e = 5 \/ e = 6
                    \/ e = 7 \/ e = 8 \/ e = 9 \/ e = 10)%Z) by lia.
  assert (Hstep :
    forall p h : Z, (p = 2 * h)%Z -> (0 < h <= 512)%Z ->
      (h <= 1 \/ 9007199254740992 < x \/ x mod p = 0)%Z ->
      ((x <= 9007199254740992)%Z ->
       (1 * ((if (x mod p >? h)%Z || ((x mod p =? h)%Z && Z.odd (x / p))
              then (x / p + 1)%Z else (x / p)%Z) * p))%Z = x) /\
      (Z.abs (1 * ((if (x mod p >? h)%Z || ((x mod p =? h)%Z && Z.odd (x / p))
                    then (x / p + 1)%Z else (x / p)%Z) * p) - x) <= 512)%Z).
  { intros p h Hp Hh Hex.
    pose proof (Z.div_mod x p ltac:(lia)) as Hdm.
    pose proof (Z.mod_pos_bound x p ltac:(lia)) as Hr.
    destruct ((x mod p >? h)%Z || ((x mod p =? h)%Z && Z.odd (x / p))) eqn:Hb.
    - assert (Hrh : (h <= x mod p)%Z).
      { apply orb_true_iff in Hb; destruct Hb as [Hb|Hb].
        - apply Z.gtb_lt in Hb; lia.
        - apply andb_prop in Hb; destruct Hb as [Hb _].
          apply Z.eqb_eq in Hb; lia. }
      split; [|nia].
      intros Hle. assert (x = 9007199254740992)%Z by lia. subst x.
      exfalso. destruct Hex as [Hex|[Hex|Hex]]; [|lia|lia].
      assert (h = 1)%Z by lia. subst h. subst p. simpl in Hrh. lia.
    - assert (Hrh : (x mod p <= h)%Z).
      { apply orb_false_iff in Hb; destruct Hb as [Hb _].
        rewrite Z.gtb_ltb in Hb. apply Z.ltb_ge in Hb; lia. }
      split; [|nia].
      intros Hle. assert (x = 9007199254740992)%Z by lia. subst x.
      destruct Hex as [Hex|[Hex|Hex]]; [|lia|nia].
      assert (h = 1)%Z by lia. subst h. subst p. simpl in *. lia. }
  assert (Hx53 : (x <= 9007199254740992 -> e = 1)%Z).
  { intros Hle. assert (x = 9007199254740992)%Z by lia. subst x.
    subst e. reflexivity. }
  destruct Hcases as [E|[E|[E|[E|[E|[E|[E|[E|[E|E]]]]]]]]]; rewrite E;
    match goal with
    | |- context [(2 ^ ?k)%Z] =>
        let p := eval vm_compute in (2 ^ k)%Z in
        let h := eval vm_compute in (2 ^ (k - 1))%Z in
        change (2 ^ k)%Z with p; change (2 ^ (k - 1))%Z with h;
        apply (Hstep p h); [reflexivity | lia |]
    end;
    try (left; lia);
    (destruct (Z_le_gt_dec x 9007199254740992) as [Hle|Hgt];
     [specialize (Hx53 Hle); lia | right; left; lia]).
Qed.

(** X8.  After a parse that succeeds a pass sends, for each record in
    turn, the gauges is_active, disks_active, disks, blocks and
    blocks_synced of subsystem "md", in this order, with the values 1 or
    0 for the activity flag and then the conversions to [float64] of the
    numbers of active disks, of disks, of blocks and of synced blocks of
    the record.  The conversion of such a number is the number itself up
    to 2^53 and is at most 512 away from it above. *)
Theorem X8_gauges_of_each_device
    (Namespace : string) (fs : FileSystem) (mds : list mdStatus) :
  Stat fs statusfile = None ->
  parseMdstat fs statusfile = Return mds None ->
  (exists sent,
     Update Namespace fs = Return sent None /\
     map (fun m => (fqName (desc m), val m)) sent
       = flat_map
           (fun md =>
              [ (BuildFQName Namespace "md" "is_active",
                 if isActive md then 1%Z else 0%Z);
                (BuildFQName Namespace "md" "disks_active",
                 float64 (disksActive md));
                (BuildFQName Namespace "md" "disks", float64 (disksTotal md));
                (BuildFQName Namespace "md" "blocks",
                 float64 (blocksTotal md));
                (BuildFQName Namespace "md" "blocks_synced",
                 float64 (blocksSynced md)) ])
           mds) /\
  Forall
    (fun md =>
       Forall
         (fun x =>
            ((x <= 2 ^ 53)%Z -> float64 x = x) /\
            (Z.abs (float64 x - x) <= 512)%Z)
         [disksActive md; disksTotal md; blocksTotal md; blocksSynced md])
    mds.
Proof.
  intros Hstat Hparse. split.
  - unfold Update. rewrite Hstat, Hparse. cbn.
    destruct (fold_updateBody_map Namespace _ _ _
                (updateBody_gauges Namespace) mds []) as (batch & E & M).
    rewrite E. now exists batch.
  - unfold parseMdstat in Hparse.
    destruct (ReadFile fs statusfile) as [content|e]; [|discriminate].
    refine (rangeLines_Forall _ _ _ _ _ _ _ _ (Forall_nil _) Hparse).
    intros i l md Hbody.
    destruct (loopBody_Append_range _ _ _ _ Hbody) as (H1 & H2 & H3 & H4).
    unfold maxInt64 in *.
    repeat (apply Forall_cons; [now apply float64_of_record_number|]).
    apply Forall_nil.
Qed.

Lemma X8_gauges_of_each_device_witness :
  (exists sent,
     Update "node"
       (fsOf (unlines ["md0 : active raid1";
                       "      9007199254740993 blocks [2/2] [UU]"; ""; ""]))
       = Return sent None /\
     map (fun m => (fqName (desc m), val m)) sent
       = flat_map
           (fun md =>
              [ (BuildFQName "node" "md" "is_active",
                 if isActive md then 1%Z else 0%Z);
                (BuildFQName "node" "md" "disks_active",
                 float64 (disksActive md));
                (BuildFQName "node" "md" "disks", float64 (disksTotal md));
                (BuildFQName "node" "md" "blocks",
                 float64 (blocksTotal md));
                (BuildFQName "node" "md" "blocks_synced",
                 float64 (blocksSynced md)) ])
           [ {| mdName := "md0"; isActive := true; disksActive := 2;
                disksTotal := 2; blocksTotal := 9007199254740993;
                blocksSynced := 9007199254740993 |} ]) /\
  Forall
    (fun md =>
       Forall
         (fun x =>
            ((x <= 2 ^ 53)%Z -> float64 x = x) /\
            (Z.abs (float64 x - x) <= 512)%Z)
         [disksActive md; disksTotal md; blocksTotal md; blocksSynced md])
    [ {| mdName := "md0"; isActive := true; disksActive := 2;
         disksTotal := 2; blocksTotal := 9007199254740993;
         blocksSynced := 9007199254740993 |} ].
Proof.
  apply (X8_gauges_of_each_device "node"
           (fsOf (unlines ["md0 : active raid1";
                           "      9007199254740993 blocks [2/2] [UU]"; ""; ""]))).
  - reflexivity.
  - vm_compute; reflexivity.
Defined.

Lemma append_inj_l (a b c : string) :
  (a ++ b)%string = (a ++ c)%string -> b = c.
Proof.
  induction a as [|x a IH]; simpl; intros H; [exact H|].
  inversion H; auto.
Qed.

(** X9.  Whatever the namespace, the five descriptors have five
    different names, the namespace (when it is not empty), "md" and the
    name of the gauge joined by underscores, and each has the one
    variable label "device". *)
Theorem X9_descriptor_names (Namespace : string) :
  let descs := [ isActiveDesc Namespace; disksActiveDesc Namespace;
                 disksTotalDesc Namespace; blocksTotalDesc Namespace;
                 blocksSyncedDesc Namespace ] in
  NoDup (map fqName descs) /\
  map fqName descs
    = map (fun name =>
             if String.eqb Namespace ""
             then ("md_" ++ name)%string
             else (Namespace ++ "_md_" ++ name)%string)
        ["is_active"; "disks_active"; "disks"; "blocks"; "blocks_synced"] /\
  Forall (fun d => variableLabels d = ["device"]) descs.
Proof.
  cbv zeta.
  assert (Hnames :
    map fqName [ isActiveDesc Namespace; disksActiveDesc Namespace;
                 disksTotalDesc Namespace; blocksTotalDesc Namespace;
                 blocksSyncedDesc Namespace ]
    = map (fun name =>
             if String.eqb Namespace ""
             then ("md_" ++ name)%string
             else (Namespace ++ "_md_" ++ name)%string)
        ["is_active"; "disks_active"; "disks"; "blocks"; "blocks_synced"]).
  { unfold isActiveDesc, disksActiveDesc, disksTotalDesc, blocksTotalDesc,
      blocksSyncedDesc, NewDesc, BuildFQName.
    destruct (String.eqb Namespace ""); reflexivity. }
  split; [|split; [exact Hnames | repeat constructor]].
  rewrite Hnames.
  destruct (String.eqb Namespace "").
  - repeat (apply NoDup_cons;
              [simpl; intros H;
               repeat (destruct H as [H|H]; [discriminate H|]); exact H|]).
    apply NoDup_nil.
  - repeat (apply NoDup_cons;
              [simpl; intros H;
               repeat (destruct H as [H|H];
                       [apply append_inj_l in H; discriminate H|]);
               exact H|]).
    apply NoDup_nil.
Qed.

(** ** The lines of a text *)

Lemma concat_cons2 (sep x y : string) (ys : list string) :
  String.concat sep (x :: y :: ys)
  = (x ++ sep ++ String.concat sep (y :: ys))%string.
Proof. reflexivity. Qed.

Lemma concat_Split (s : string) (sep : ascii) :
  String.concat (String sep EmptyString) (Split s sep) = s.
Proof.
  induction s as [|c s IH]; simpl; [reflexivity|].
  pose proof (Split_nonempty s sep) as Hne.
  destruct (Ascii.eqb_spec c sep) as [->|Hc].
  - destruct (Split s sep) as [|piece pieces]; [congruence|].
    rewrite concat_cons2, IH. reflexivity.
  - destruct (Split s sep) as [|piece pieces]; [congruence|].
    destruct pieces as [|piece' pieces].
    + simpl in *. now rewrite IH.
    + rewrite concat_cons2. rewrite concat_cons2 in IH.
      rewrite <- IH. reflexivity.
Qed.

Lemma Split_no_sep (s : string) (sep : ascii) :
  Forall (fun l => ~ In sep (list_ascii_of_string l)) (Split s sep).
Proof.
  induction s as [|c s IH]; simpl.
  - constructor; [intros [] | constructor].
  - pose proof (Split_nonempty s sep) as Hne.
    destruct (Ascii.eqb_spec c sep) as [->|Hc].
    + constructor; [intros [] | exact IH].
    + destruct (Split s sep) as [|piece pieces]; [congruence|].
      inversion IH as [|? ? Hp Hps]; subst.
      constructor; [|exact Hps].
      simpl. intros [E|Hin]; [congruence | now apply Hp].
Qed.

Lemma Split_without_sep (l : string) (sep : ascii) :
  ~ In sep (list_ascii_of_string l) -> Split l sep = [l].
Proof.
  induction l as [|c l IH]; simpl; intros Hno; [reflexivity|].
  destruct (Ascii.eqb_spec c sep) as [->|Hc]; [exfalso; apply Hno; now left|].
  rewrite IH; [reflexivity|]. intros Hin; apply Hno; now right.
Qed.

Lemma Split_concat (ls : list string) (sep : ascii) :
  ls <> [] ->
  Forall (fun l => ~ In sep (list_ascii_of_string l)) ls ->
  Split (String.concat (String sep EmptyString) ls) sep = ls.
Proof.
  induction ls as [|l ls IH]; intros Hne Hall; [congruence|].
  inversion Hall as [|? ? Hl Hls]; subst.
  destruct ls as [|l' ls].
  - simpl. now apply Split_without_sep.
  - rewrite concat_cons2.
    change (String sep EmptyString
              ++ String.concat (String sep EmptyString) (l' :: ls))%string
      with (String sep (String.concat (String sep EmptyString) (l' :: ls))).
    rewrite Split_app, (Split_without_sep l sep Hl), IH;
      [reflexivity | discriminate | exact Hls].
Qed.

(** X10.  Splitting a text into lines and joining lines with newlines
    undo each other: the lines of a text, joined, give the text back; no
    line holds a newline and there is at least one line; and a list of
    one or more lines without newlines is the list of the lines of its
    join. *)
Theorem X10_lines_and_text :
  (forall content,
     unlines (Split content "010") = content /\
     Split content "010" <> [] /\
     Forall (fun l => ~ In "010"%char (list_ascii_of_string l))
       (Split content "010")) /\
  (forall ls,
     ls <> [] ->
     Forall (fun l => ~ In "010"%char (list_ascii_of_string l)) ls ->
     Split (unlines ls) "010" = ls).
Proof.
  split.
  - intros content. split; [apply concat_Split|].
    split; [apply Split_nonempty | apply Split_no_sep].
  - intros ls. apply Split_concat.
Qed.

Lemma X10_lines_and_text_witness :
  Split (unlines exampleLines) "010" = exampleLines.
Proof.
  apply (proj2 X10_lines_and_text exampleLines).
  - discriminate.
  - repeat constructor; vm_compute; intuition discriminate.
Defined.

(** ** A section that is well formed gives its record *)

(** X11.  A device line with three tokens or more, followed by three
    lines or more, the first of which holds a status match whose three
    numbers fit [int64], gives a record: named by the first token,
    active when the third token is "active", with the numbers of the
    status line, and with the blocks synced taken from the sync line
    when that line tells of a recovery or a resync and holds a ratio
    whose first number fits, and equal to the blocks otherwise. *)
Theorem X11_well_formed_section
    (lines : list string) (i : nat)
    (l statusline bitmapline syncline m0 c1 c2 c3 : string) (synced : Z) :
  skipped l = false ->
  (3 <= length (Split l " "))%nat ->
  (i + 3 < length lines)%nat ->
  nth_error lines (i + 1) = Some statusline ->
  FindStringSubmatch statuslineRE statusline = [m0; c1; c2; c3] ->
  Forall (fun c => (digitsValue c <= 2 ^ 63 - 1)%Z) [c1; c2; c3] ->
  nth_error lines (i + 2) = Some bitmapline ->
  nth_error lines (if Contains bitmapline "bitmap" then i + 3 else i + 2)
    = Some syncline ->
  (Contains syncline "recovery" || Contains syncline "resync" = false /\
   synced = digitsValue c1
   \/
   Contains syncline "recovery" || Contains syncline "resync" = true /\
   exists m n,
     FindStringSubmatch buildlineRE syncline = [m; n] /\
     (digitsValue n <= 2 ^ 63 - 1)%Z /\ synced = digitsValue n) ->
  loopBody lines i l
    = Append {| mdName := nth 0 (Split l " ") "";
                isActive := String.eqb (nth 2 (Split l " ") "") "active";
                disksActive := digitsValue c3;
                disksTotal := digitsValue c2;
                blocksTotal := digitsValue c1;
                blocksSynced := synced |}.
Proof.
  intros Hsk Hlen Hlines Hs Hm Hall Hb Hj Hsync.
  assert (He : evalStatusline statusline
               = Return (digitsValue c3, digitsValue c2, digitsValue c1) None).
  { destruct (evalStatusline_cases statusline)
      as [[E _]|(m0' & d1 & d2 & d3 & E & _ & _ & _
                 & [[_ R]|(c & Hin & Hc & _)])].
    - rewrite E in Hm; discriminate.
    - rewrite Hm in E; inversion E; subst. exact R.
    - exfalso. rewrite Hm in E; inversion E; subst.
      rewrite Forall_forall in Hall. specialize (Hall c Hin).
      unfold maxInt64 in Hc. lia. }
  enter_section l lhead ltail Hsk.
  destruct (Split_nth_error (String lhead ltail) 0) as [currentMD E0]; [lia|].
  destruct (Split_nth_error (String lhead ltail) 2) as [state E2]; [lia|].
  rewrite (nth_error_nth _ _ _ E0), (nth_error_nth _ _ _ E2), E0, E2.
  apply Nat.ltb_ge in Hlen. rewrite Hlen.
  apply Nat.leb_gt in Hlines. rewrite Hlines.
  rewrite Hs, He, Hb, Hj.
  destruct Hsync as [[Hc ->]|[Hc (m & n & Hbm & Hn & ->)]]; rewrite Hc;
    [reflexivity|].
  destruct (evalBuildline_cases syncline)
    as [[E _]|(m' & n' & total & E & _ & _ & _ & [[_ R]|[B _]])].
  - rewrite E in Hbm; discriminate.
  - rewrite Hbm in E; inversion E; subst. now rewrite R.
  - exfalso. rewrite Hbm in E; inversion E; subst.
    unfold maxInt64 in B. lia.
Qed.

Lemma X11_well_formed_section_witness :
  loopBody recoveryLines 0 "md0 : active raid1 sda1[0] sdb1[1]"
    = Append {| mdName := nth 0 (Split "md0 : active raid1 sda1[0] sdb1[1]" " ") "";
                isActive :=
                  String.eqb
                    (nth 2 (Split "md0 : active raid1 sda1[0] sdb1[1]" " ") "")
                    "active";
                disksActive := digitsValue "1";
                disksTotal := digitsValue "2";
                blocksTotal := digitsValue "1953511936";
                blocksSynced := 878780416 |}.
Proof.
  apply (X11_well_formed_section recoveryLines 0
           "md0 : active raid1 sda1[0] sdb1[1]"
           "      1953511936 blocks [2/1] [U_]"
           "      [==>..]  recovery = 45.0% (878780416/1953511936) finish=1min"
           "      [==>..]  recovery = 45.0% (878780416/1953511936) finish=1min"
           "1953511936 blocks [2/1] [U_]" "1953511936" "2" "1").
  - reflexivity.
  - vm_compute; lia.
  - simpl; lia.
  - reflexivity.
  - vm_compute; reflexivity.
  - repeat constructor; vm_compute; discriminate.
  - reflexivity.
  - reflexivity.
  - right. split; [vm_compute; reflexivity|].
    exists "(878780416/1953511936)"%string, "878780416"%string.
    split; [vm_compute; reflexivity|].
    split; [vm_compute; discriminate | vm_compute; reflexivity].
Defined.

(** ** A pass never panics *)

Lemma parseMdstat_returns (fs : FileSystem) (path : string) :
  exists mds err, parseMdstat fs path = Return mds err.
Proof.
  unfold parseMdstat. destruct (ReadFile fs path) as [content|err]; [|eauto].
  apply rangeLines_returns.
Qed.

(** X12.  A pass always returns: the descriptors have one label and
    each gauge is given one label value, so no gauge is refused, and
    the parser does not panic.  An error it returns is the error of the
    status of the file, as it is, or the error of the parser with the
    name of the file put in front; a file that does not exist never
    gives an error. *)
Theorem X12_Update_returns (Namespace : string) (fs : FileSystem) :
  (exists sent err, Update Namespace fs = Return sent err) /\
  (forall sent err,
     Update Namespace fs = Return sent (Some err) ->
     IsNotExist (Stat fs statusfile) = false /\
     (Stat fs statusfile = Some err \/
      Stat fs statusfile = None /\
      exists mds e,
        parseMdstat fs statusfile = Return mds (Some e) /\
        err = Errorf ("error parsing /proc/mdstat: " ++ Error e))).
Proof.
  split.
  - unfold Update.
    destruct (IsNotExist (Stat fs statusfile)); [eauto|].
    destruct (Stat fs statusfile) as [e|]; [eauto|].
    destruct (parseMdstat_returns fs statusfile)
      as (mds & perr & ->).
    destruct perr as [e|]; [eauto|].
    destruct (fold_updateBody_sends Namespace mds []) as (batch & -> & _).
    eauto.
  - intros sent err. unfold Update.
    destruct (IsNotExist (Stat fs statusfile)); [discriminate|].
    destruct (Stat fs statusfile) as [e|].
    + intros H; inversion H; subst. auto.
    + destruct (parseMdstat fs statusfile) as [mds [e|]|] eqn:Hp.
      * intros H; inversion H; subst. split; [reflexivity|]. right.
        split; [reflexivity|]. now exists mds, e.
      * destruct (fold_left _ mds (Some [])); discriminate.
      * discriminate.
Qed.

Lemma X12_Update_returns_witness :
  IsNotExist (Stat (fsOf "md0") statusfile) = false /\
  (Stat (fsOf "md0") statusfile
     = Some (Errorf ("error parsing /proc/mdstat: "
                       ++ "error parsing mdline: md0")) \/
   Stat (fsOf "md0") statusfile = None /\
   exists mds e,
     parseMdstat (fsOf "md0") statusfile = Return mds (Some e) /\
     Errorf ("error parsing /proc/mdstat: " ++ "error parsing mdline: md0")
       = Errorf ("error parsing /proc/mdstat: " ++ Error e)).
Proof.
  apply (proj2 (X12_Update_returns "node" (fsOf "md0")) []).
  vm_compute; reflexivity.
Defined.
